(** * Hexagon CPU state: register dump, fault classification, lifecycle

    A shallow embedding of [target/hexagon/cpu.c] (QEMU, user-only build)
    and the properties of it that the design document states.

    Conventions.
    - [target_ulong] is a 32-bit unsigned integer; it is carried as a [Z]
      and every C operation that can leave the range has its wrap-around
      written out ([to_target_ulong], [to_int32]).
    - C arrays ([gpr], [pred]) are lists read with stdpp's total lookup and
      written with stdpp's list insert; [env_wf] records the array sizes
      that the C declaration fixes.
    - [FILE *] is the list of strings written so far, one element per
      [qemu_fprintf] call.
    - Calls that leave this file (parent class handlers, the vCPU
      scheduler, the cpu-loop exit) are abstract functions on the parent
      object [CPUState]; the lifecycle and fault code runs in a small
      monad that threads the CPU object, appends every such call to a
      call log, and has a second outcome for the cpu-loop exit, which
      does not return to its caller. *)

From Stdlib Require Import ZArith Lia Bool List.
From Stdlib Require Import Ascii String.
From stdpp Require Import base numbers list strings.

Local Open Scope Z_scope.

(** ** Machine integers *)

Module Word.

(** [TARGET_LONG_BITS] for Hexagon. *)
Definition bits : Z := 32.

Definition modulus : Z := 2 ^ bits.

(** Conversion to [target_ulong] (uint32_t): reduction modulo 2^32. *)
Definition to_target_ulong (z : Z) : Z := z mod modulus.

(** Conversion to [int32_t] (two's complement; QEMU is built with
    -fwrapv, so signed overflow wraps). *)
Definition to_int32 (z : Z) : Z := (z + 2 ^ 31) mod modulus - 2 ^ 31.

Definition is_target_ulong (z : Z) : Prop := 0 <= z < modulus.

Definition is_byte (z : Z) : Prop := 0 <= z < 256.

(** Byte [k] of a word, byte 0 being the least significant. *)
Definition byte_of (k : Z) (z : Z) : Z := Z.land (Z.shiftr z (8 * k)) 255.

End Word.

Export Word.

(** ** Register numbering *)

(** [hexagon_regnames], copied from the source; its length is
    [TOTAL_PER_THREAD_REGS]. *)
Definition hexagon_regnames : list string :=
  [ "r0"; "r1";  "r2";  "r3";  "r4";   "r5";  "r6";  "r7";
    "r8"; "r9";  "r10"; "r11"; "r12";  "r13"; "r14"; "r15";
    "r16"; "r17"; "r18"; "r19"; "r20";  "r21"; "r22"; "r23";
    "r24"; "r25"; "r26"; "r27"; "r28";  "r29"; "r30"; "r31";
    "sa0"; "lc0"; "sa1"; "lc1"; "p3_0"; "c5";  "m0";  "m1";
    "usr"; "pc";  "ugp"; "gp";  "cs0";  "cs1"; "c14"; "c15";
    "c16"; "c17"; "c18"; "c19"; "pkt_cnt";  "insn_cnt"; "c22"; "c23";
    "c24"; "c25"; "c26"; "c27"; "c28";  "c29"; "c30"; "c31" ]%string.

Definition TOTAL_PER_THREAD_REGS : nat := 64.

Definition NUM_PREGS : nat := 4.

(** Modelled from the spec: the [HEX_REG_*] enumeration is declared in
    hex_regs.h, which is not among the sources.  The design document names
    the registers the dump prints ([sa0], [lc0], [sa1], [lc1], [m0], [m1],
    [usr], [p3_0], [gp], [ugp], [pc]); each constant is the index at which
    [hexagon_regnames] (which is in the source) holds that name, see
    [HEX_REG_names]. *)
Module HexReg.
Definition HEX_REG_SA0  : nat := 32.
Definition HEX_REG_LC0  : nat := 33.
Definition HEX_REG_SA1  : nat := 34.
Definition HEX_REG_LC1  : nat := 35.
Definition HEX_REG_P3_0 : nat := 36.
Definition HEX_REG_M0   : nat := 38.
Definition HEX_REG_M1   : nat := 39.
Definition HEX_REG_USR  : nat := 40.
Definition HEX_REG_PC   : nat := 41.
Definition HEX_REG_UGP  : nat := 42.
Definition HEX_REG_GP   : nat := 43.
End HexReg.

Export HexReg.

(** ** Architectural state *)

(** Modelled from the spec: [float_status] and its setters are declared in
    fpu/softfloat-types.h and fpu/softfloat-helpers.h, which are not among
    the sources.  The design document speaks of a rounding / NaN-handling
    configuration with a default-NaN mode and a tininess-detection policy;
    the remaining fields stand for the rest of the configuration. *)
Inductive FloatRoundMode : Type :=
| float_round_nearest_even
| float_round_down
| float_round_up
| float_round_to_zero.

Record float_status : Type := mk_float_status {
  float_rounding_mode : FloatRoundMode;
  float_exception_flags : Z;
  tininess_before_rounding : bool;
  flush_to_zero : bool;
  default_nan_mode : bool
}.

Definition float_tininess_after_rounding : bool := false.
Definition float_tininess_before_rounding : bool := true.

Definition set_default_nan_mode (val : bool) (status : float_status)
  : float_status :=
  {| float_rounding_mode := float_rounding_mode status;
     float_exception_flags := float_exception_flags status;
     tininess_before_rounding := tininess_before_rounding status;
     flush_to_zero := flush_to_zero status;
     default_nan_mode := val |}.

Definition set_float_detect_tininess (val : bool) (status : float_status)
  : float_status :=
  {| float_rounding_mode := float_rounding_mode status;
     float_exception_flags := float_exception_flags status;
     tininess_before_rounding := val;
     flush_to_zero := flush_to_zero status;
     default_nan_mode := default_nan_mode status |}.

(** The fields of [CPUHexagonState] that cpu.c reads or writes. *)
Record CPUHexagonState : Type := mk_env {
  gpr : list Z;              (* target_ulong gpr[TOTAL_PER_THREAD_REGS] *)
  pred : list Z;             (* target_ulong pred[NUM_PREGS] *)
  last_pc_dumped : Z;        (* target_ulong *)
  stack_start : Z;           (* target_ulong *)
  fp_status : float_status
}.

Definition env_wf (env : CPUHexagonState) : Prop :=
  length (gpr env) = TOTAL_PER_THREAD_REGS /\
  length (pred env) = NUM_PREGS.

Definition set_gpr (i : nat) (v : Z) (env : CPUHexagonState)
  : CPUHexagonState :=
  {| gpr := <[i := v]> (gpr env);
     pred := pred env;
     last_pc_dumped := last_pc_dumped env;
     stack_start := stack_start env;
     fp_status := fp_status env |}.

Definition set_last_pc_dumped (v : Z) (env : CPUHexagonState)
  : CPUHexagonState :=
  {| gpr := gpr env;
     pred := pred env;
     last_pc_dumped := v;
     stack_start := stack_start env;
     fp_status := fp_status env |}.

Definition set_fp_status (st : float_status) (env : CPUHexagonState)
  : CPUHexagonState :=
  {| gpr := gpr env;
     pred := pred env;
     last_pc_dumped := last_pc_dumped env;
     stack_start := stack_start env;
     fp_status := st |}.

(** Modelled from the spec: the exception causes are the [HEX_EXCP_*]
    codes of cpu_bits.h, which is not among the sources.  The design
    document lists them as a fixed set of causes; the three that the fault
    classifier uses are the constructors below, named as in the source. *)
Inductive ExceptionCause : Type :=
| HEX_EXCP_FETCH_NO_UPAGE   (* fetch denied by the unprivileged page table *)
| HEX_EXCP_PRIV_NO_UREAD    (* privileged read denied to user *)
| HEX_EXCP_PRIV_NO_UWRITE.  (* privileged write denied to user *)

(** [MMUAccessType] of hw/core/cpu.h. *)
Inductive MMUAccessType : Type :=
| MMU_DATA_LOAD
| MMU_DATA_STORE
| MMU_INST_FETCH.

(** The parent object.  Of [CPUState] this file writes [exception_index]
    only; [cs_rest] stands for everything else the parent class and the
    execution collaborator keep there. *)
Record CPUState (R : Type) : Type := mk_cs {
  exception_index : option ExceptionCause;
  cs_rest : R
}.

Arguments mk_cs {R} _ _.
Arguments exception_index {R} _.
Arguments cs_rest {R} _.

Definition set_exception_index {R} (c : ExceptionCause) (cs : CPUState R)
  : CPUState R :=
  {| exception_index := Some c; cs_rest := cs_rest cs |}.

(** [HexagonCPU]: the parent object, the architectural state and the two
    qdev properties [lldb-compat] and [lldb-stack-adjust]. *)
Record HexagonCPU (R : Type) : Type := mk_cpu {
  parent_obj : CPUState R;
  env : CPUHexagonState;
  lldb_compat : bool;
  lldb_stack_adjust : Z      (* target_ulong *)
}.

Arguments mk_cpu {R} _ _ _ _.
Arguments parent_obj {R} _.
Arguments env {R} _.
Arguments lldb_compat {R} _.
Arguments lldb_stack_adjust {R} _.

Definition set_env {R} (e : CPUHexagonState) (cpu : HexagonCPU R)
  : HexagonCPU R :=
  {| parent_obj := parent_obj cpu;
     env := e;
     lldb_compat := lldb_compat cpu;
     lldb_stack_adjust := lldb_stack_adjust cpu |}.

Definition set_parent_obj {R} (cs : CPUState R) (cpu : HexagonCPU R)
  : HexagonCPU R :=
  {| parent_obj := cs;
     env := env cpu;
     lldb_compat := lldb_compat cpu;
     lldb_stack_adjust := lldb_stack_adjust cpu |}.

(** ** Stack-pointer adjustment *)

(** [adjust_stack_ptrs]: all three locals are [target_ulong], so the two
    window bounds and the subtraction wrap at 32 bits. *)
Definition adjust_stack_ptrs {R} (cpu : HexagonCPU R) (addr : Z) : Z :=
  let stack_adjust := lldb_stack_adjust cpu in
  let stack_start := stack_start (env cpu) in
  let stack_size := 0x10000 in
  if stack_adjust =? 0 then addr
  else if (to_target_ulong (stack_start + 0x1000) >=? addr)
          && (addr >=? to_target_ulong (stack_start - stack_size))
       then to_target_ulong (addr - stack_adjust)
       else addr.

(** ** The packed predicate register *)

(** The body of the loop of [read_p3_0], run for [i = n - 1] down to [0].
    [control_reg] is an [int32_t]; [env->pred[i] & 0xff] is unsigned, so
    the [|] is computed on [uint32_t] and stored back as [int32_t]. *)
Fixpoint read_p3_0_loop (pred : list Z) (n : nat) (control_reg : Z) : Z :=
  match n with
  | O => control_reg
  | S i =>
      let control_reg := to_int32 (Z.shiftl control_reg 8) in
      let control_reg :=
        to_int32 (Z.lor (to_target_ulong control_reg)
                        (Z.land (pred !!! i) 0xff)) in
      read_p3_0_loop pred i control_reg
  end.

(** [read_p3_0]: [HEX_REG_P3_0] (aka C4) is an alias for the predicate
    registers.  The [int32_t] result is returned as [target_ulong]. *)
Definition read_p3_0 (env : CPUHexagonState) : Z :=
  to_target_ulong (read_p3_0_loop (pred env) NUM_PREGS 0).

(** ** Register dump *)

Definition FILE : Type := list string.

Definition qemu_fprintf (f : FILE) (s : string) : FILE := f ++ [s].

Definition LF : string := String (ascii_of_nat 10) EmptyString.

Definition hex_digit (d : Z) : ascii :=
  match d with
  | 0 => "0" | 1 => "1" | 2 => "2" | 3 => "3"
  | 4 => "4" | 5 => "5" | 6 => "6" | 7 => "7"
  | 8 => "8" | 9 => "9" | 10 => "a" | 11 => "b"
  | 12 => "c" | 13 => "d" | 14 => "e" | _ => "f"
  end%char.

Fixpoint hex_digits (width : nat) (v : Z) (acc : string) : string :=
  match width with
  | O => acc
  | S w => hex_digits w (v / 16) (String (hex_digit (v mod 16)) acc)
  end.

(** Modelled from the spec: [TARGET_FMT_lx] is a macro of the target
    headers, which are not among the sources.  The design document asks
    for hexadecimal of a fixed width given by the machine-word size; for
    the 32-bit [target_ulong] that is eight digits, zero padded. *)
Definition TARGET_FMT_lx (v : Z) : string := hex_digits 8 v EmptyString.

(** The text of one register line: ["  %s = 0x" TARGET_FMT_lx "\n"]. *)
Definition reg_line (name : string) (value : Z) : string :=
  ("  " +:+ name +:+ " = 0x" +:+ TARGET_FMT_lx value +:+ LF)%string.

Section Dump.

Context {R : Type}.

Definition print_reg (f : FILE) (cpu : HexagonCPU R) (regnum : nat) : FILE :=
  let value :=
    if (regnum =? HEX_REG_P3_0)%nat then read_p3_0 (env cpu)
    else if (regnum <? 32)%nat
         then adjust_stack_ptrs cpu (gpr (env cpu) !!! regnum)
         else gpr (env cpu) !!! regnum in
  qemu_fprintf f (reg_line (hexagon_regnames !!! regnum) value).

(** Everything [hexagon_dump] writes once it has decided to dump
    (CONFIG_USER_ONLY is defined: the build has no system mode). *)
Definition dump_registers (cpu : HexagonCPU R) (f : FILE) : FILE :=
  let f := qemu_fprintf f ("General Purpose Registers = {" +:+ LF) in
  let f := fold_left (fun f i => print_reg f cpu i) (seq 0 32) f in
  let f := print_reg f cpu HEX_REG_SA0 in
  let f := print_reg f cpu HEX_REG_LC0 in
  let f := print_reg f cpu HEX_REG_SA1 in
  let f := print_reg f cpu HEX_REG_LC1 in
  let f := print_reg f cpu HEX_REG_M0 in
  let f := print_reg f cpu HEX_REG_M1 in
  let f := print_reg f cpu HEX_REG_USR in
  let f := print_reg f cpu HEX_REG_P3_0 in
  let f := print_reg f cpu HEX_REG_GP in
  let f := print_reg f cpu HEX_REG_UGP in
  let f := print_reg f cpu HEX_REG_PC in
  let f := qemu_fprintf f ("  cause = 0x000000db" +:+ LF) in
  let f := qemu_fprintf f ("  badva = 0x00000000" +:+ LF) in
  let f := qemu_fprintf f ("  cs0 = 0x00000000" +:+ LF) in
  let f := qemu_fprintf f ("  cs1 = 0x00000000" +:+ LF) in
  qemu_fprintf f ("}" +:+ LF).

(** [hexagon_dump]: returns the CPU object (whose [last_pc_dumped] it may
    have written) and the stream. *)
Definition hexagon_dump (cpu : HexagonCPU R) (f : FILE)
  : HexagonCPU R * FILE :=
  if lldb_compat cpu then
    if gpr (env cpu) !!! HEX_REG_PC =? last_pc_dumped (env cpu)
    then (cpu, f)
    else
      let cpu :=
        set_env (set_last_pc_dumped (gpr (env cpu) !!! HEX_REG_PC) (env cpu))
                cpu in
      (cpu, dump_registers cpu f)
  else (cpu, dump_registers cpu f).

(** [hexagon_dump_state], the [dump_state] hook. *)
Definition hexagon_dump_state (cpu : HexagonCPU R) (f : FILE) (flags : Z)
  : HexagonCPU R * FILE :=
  hexagon_dump cpu f.

End Dump.

(** ** Program-counter entry points *)

Section EntryPoints.

Context {R : Type}.

(** The one field of [TranslationBlock] that is read here. *)
Record TranslationBlock : Type := mk_tb { tb_pc : Z (* target_ulong *) }.

(** [hexagon_cpu_set_pc]: [value] is a [vaddr] (64 bits); the store into
    the [target_ulong] array keeps its low 32 bits. *)
Definition hexagon_cpu_set_pc (cpu : HexagonCPU R) (value : Z)
  : HexagonCPU R :=
  set_env (set_gpr HEX_REG_PC (to_target_ulong value) (env cpu)) cpu.

Definition hexagon_cpu_synchronize_from_tb (cpu : HexagonCPU R)
  (tb : TranslationBlock) : HexagonCPU R :=
  set_env (set_gpr HEX_REG_PC (to_target_ulong (tb_pc tb)) (env cpu)) cpu.

Definition restore_state_to_opc (env : CPUHexagonState)
  (tb : TranslationBlock) (data : list Z) : CPUHexagonState :=
  set_gpr HEX_REG_PC (to_target_ulong (data !!! 0%nat)) env.

End EntryPoints.

(** ** Calls that leave this file *)

(** The functions of other compilation units that cpu.c calls. *)
Inductive Call : Type :=
| CALL_parent_reset
| CALL_cpu_exec_realizefn
| CALL_qemu_init_vcpu
| CALL_cpu_reset
| CALL_parent_realize
| CALL_cpu_loop_exit_restore (retaddr : Z).

Definition Error : Type := string.

(** What runs: the CPU object and the log of outside calls, oldest first. *)
Record Machine (R : Type) : Type := mk_machine {
  m_cpu : HexagonCPU R;
  m_calls : list Call
}.

Arguments mk_machine {R} _ _.
Arguments m_cpu {R} _.
Arguments m_calls {R} _.

(** A C function either returns to its caller or leaves through
    [cpu_loop_exit_restore] (a [siglongjmp] back to the cpu loop). *)
Inductive Outcome (R A : Type) : Type :=
| Returns (a : A) (m : Machine R)
| Exits (m : Machine R) (retaddr : Z).

Arguments Returns {R A} _ _.
Arguments Exits {R A} _ _.

Definition M (R A : Type) : Type := Machine R -> Outcome R A.

Definition ret {R A} (a : A) : M R A := fun m => Returns a m.

Definition bind {R A B} (c : M R A) (k : A -> M R B) : M R B :=
  fun m =>
    match c m with
    | Returns a m' => k a m'
    | Exits m' retaddr => Exits m' retaddr
    end.

Notation "x <- c ;; k" := (bind c (fun x => k))
  (at level 100, c at next level, right associativity).
Notation "c ;; k" := (bind c (fun _ => k))
  (at level 100, right associativity).

Definition log_call {R} (c : Call) : M R unit :=
  fun m => Returns tt (mk_machine (m_cpu m) (m_calls m ++ [c])).

Definition modify_env {R} (g : CPUHexagonState -> CPUHexagonState)
  : M R unit :=
  fun m => Returns tt (mk_machine (set_env (g (env (m_cpu m))) (m_cpu m))
                                  (m_calls m)).

Definition modify_cs {R} (g : CPUState R -> CPUState R) : M R unit :=
  fun m =>
    Returns tt (mk_machine (set_parent_obj (g (parent_obj (m_cpu m)))
                                           (m_cpu m))
                           (m_calls m)).

(** A call of an outside function that works on the parent object and
    hands back a result. *)
Definition outside {R A} (c : Call) (g : CPUState R -> CPUState R * A)
  : M R A :=
  log_call c ;;
  fun m =>
    let '(cs, a) := g (parent_obj (m_cpu m)) in
    Returns a (mk_machine (set_parent_obj cs (m_cpu m)) (m_calls m)).

(** Modelled from the spec: [cpu_loop_exit_restore] is defined in the
    execution core, which is not among the sources; it is the
    collaborator's non-local fault exit, which takes the restart address
    and does not return. *)
Definition cpu_loop_exit_restore {R A} (retaddr : Z) : M R A :=
  fun m =>
    Exits (mk_machine (m_cpu m)
                      (m_calls m ++ [CALL_cpu_loop_exit_restore retaddr]))
          retaddr.

(** ** Fault classification *)

(** [hexagon_tlb_fill], CONFIG_USER_ONLY branch (the other branch is an
    [#error]).  [address], [size], [mmu_idx] and [probe] are not read. *)
Definition hexagon_tlb_fill {R} (address : Z) (size : Z)
  (access_type : MMUAccessType) (mmu_idx : Z) (probe : bool) (retaddr : Z)
  : M R bool :=
  match access_type with
   | MMU_INST_FETCH => modify_cs (set_exception_index HEX_EXCP_FETCH_NO_UPAGE)
   | MMU_DATA_LOAD => modify_cs (set_exception_index HEX_EXCP_PRIV_NO_UREAD)
   | MMU_DATA_STORE => modify_cs (set_exception_index HEX_EXCP_PRIV_NO_UWRITE)
   end ;;
  cpu_loop_exit_restore retaddr.

(** ** Lifecycle *)

Section Lifecycle.

Context {R : Type}.

(** The parent class's reset and realize handlers ([mcc->parent_reset],
    [mcc->parent_realize]), [cpu_exec_realizefn] and [qemu_init_vcpu]:
    they belong to the object model and the execution core and see the
    parent object only.  The two that can fail hand back the error they
    would store through their [Error **] argument. *)
Variable parent_reset : CPUState R -> CPUState R.
Variable cpu_exec_realizefn : CPUState R -> CPUState R * option Error.
Variable qemu_init_vcpu : CPUState R -> CPUState R.
Variable parent_realize : CPUState R -> CPUState R * option Error.

Definition hexagon_cpu_reset : M R unit :=
  outside CALL_parent_reset (fun cs => (parent_reset cs, tt)) ;;
  modify_env (fun env =>
    set_fp_status (set_default_nan_mode true (fp_status env)) env) ;;
  modify_env (fun env =>
    set_fp_status
      (set_float_detect_tininess float_tininess_before_rounding
                                 (fp_status env)) env).

(** Modelled from the spec: [cpu_reset] is defined in hw/core/cpu.c, which
    is not among the sources.  Realization "performs one implicit reset":
    the call runs the reset handler of the object's class, which
    [hexagon_cpu_class_init] sets to [hexagon_cpu_reset]. *)
Definition cpu_reset : M R unit :=
  log_call CALL_cpu_reset ;; hexagon_cpu_reset.

(** [hexagon_cpu_realize]; the result is what [*errp] holds on return. *)
Definition hexagon_cpu_realize : M R (option Error) :=
  local_err <- outside CALL_cpu_exec_realizefn cpu_exec_realizefn ;;
  match local_err with
  | Some e => ret (Some e)
  | None =>
      outside CALL_qemu_init_vcpu (fun cs => (qemu_init_vcpu cs, tt)) ;;
      cpu_reset ;;
      outside CALL_parent_realize parent_realize
  end.

(** [n] resets in a row. *)
Fixpoint resets (n : nat) : M R unit :=
  match n with
  | O => ret tt
  | S n' => hexagon_cpu_reset ;; resets n'
  end.

End Lifecycle.

(** ** The design document's wording, for comparison with the code *)

(** Step 1 of the dump algorithm: the dump is suppressed when the
    compatibility mode is set and the program counter is the one dumped
    last. *)
Definition dump_suppressed {R} (cpu : HexagonCPU R) : bool :=
  lldb_compat cpu
  && (gpr (env cpu) !!! HEX_REG_PC =? last_pc_dumped (env cpu)).

Definition gpr_names : list string :=
  [ "r0"; "r1"; "r2"; "r3"; "r4"; "r5"; "r6"; "r7";
    "r8"; "r9"; "r10"; "r11"; "r12"; "r13"; "r14"; "r15";
    "r16"; "r17"; "r18"; "r19"; "r20"; "r21"; "r22"; "r23";
    "r24"; "r25"; "r26"; "r27"; "r28"; "r29"; "r30"; "r31" ]%string.

(** The lines of a register dump as the design document lists them:
    header, [r0] .. [r31], the control sequence, the four placeholder
    lines of the user-only build, footer. *)
Definition expected_dump_lines {R} (cpu : HexagonCPU R) : list string :=
  let reg (i : nat) := gpr (env cpu) !!! i in
  [ "General Purpose Registers = {" +:+ LF ]%string
  ++ imap (fun i name => reg_line name (adjust_stack_ptrs cpu (reg i)))
          gpr_names
  ++ [ reg_line "sa0" (reg HEX_REG_SA0);
       reg_line "lc0" (reg HEX_REG_LC0);
       reg_line "sa1" (reg HEX_REG_SA1);
       reg_line "lc1" (reg HEX_REG_LC1);
       reg_line "m0" (reg HEX_REG_M0);
       reg_line "m1" (reg HEX_REG_M1);
       reg_line "usr" (reg HEX_REG_USR);
       reg_line "p3_0" (read_p3_0 (env cpu));
       reg_line "gp" (reg HEX_REG_GP);
       reg_line "ugp" (reg HEX_REG_UGP);
       reg_line "pc" (reg HEX_REG_PC) ]
  ++ [ "  cause = 0x000000db" +:+ LF;
       "  badva = 0x00000000" +:+ LF;
       "  cs0 = 0x00000000" +:+ LF;
       "  cs1 = 0x00000000" +:+ LF ]%string
  ++ [ "}" +:+ LF ]%string.

(** The fault table of the design document. *)
Definition classify (accessKind : MMUAccessType) : ExceptionCause :=
  match accessKind with
  | MMU_INST_FETCH => HEX_EXCP_FETCH_NO_UPAGE
  | MMU_DATA_LOAD => HEX_EXCP_PRIV_NO_UREAD
  | MMU_DATA_STORE => HEX_EXCP_PRIV_NO_UWRITE
  end.

(** Where a run ends, whichever way it ends. *)
Definition final {R A} (o : Outcome R A) : Machine R :=
  match o with
  | Returns _ m => m
  | Exits m _ => m
  end.

(** ** Sample states *)

Definition fp_status_zero : float_status :=
  mk_float_status float_round_nearest_even 0 false false false.

(** A core as construction leaves it: every register zero. *)
Definition env_zero : CPUHexagonState :=
  mk_env (replicate TOTAL_PER_THREAD_REGS 0) (replicate NUM_PREGS 0) 0 0
         fp_status_zero.

Definition cpu_zero (compat : bool) (stack_adjust : Z) : HexagonCPU unit :=
  mk_cpu (mk_cs None tt) env_zero compat stack_adjust.

(** Predicate registers holding four different bytes. *)
Definition env_preds : CPUHexagonState :=
  mk_env (replicate TOTAL_PER_THREAD_REGS 0) [0x01; 0xff; 0x80; 0xfe] 0 0
         fp_status_zero.

(** A core whose program counter and [r29] both hold the stack base
    [0x10000000], dumped with a stack adjustment of [0x100]. *)
Definition env_stack : CPUHexagonState :=
  mk_env (<[HEX_REG_PC := 0x10000000]>
            (<[29%nat := 0x10000000]> (replicate TOTAL_PER_THREAD_REGS 0)))
         (replicate NUM_PREGS 0) 0 0x10000000 fp_status_zero.

Definition cpu_stack : HexagonCPU unit :=
  mk_cpu (mk_cs None tt) env_stack false 0x100.

(** A core about to be realized: every register holds [0x4080] and no
    stack base has been recorded; floating point is in a non-reset
    configuration. *)
Definition env_unrealized : CPUHexagonState :=
  mk_env (replicate TOTAL_PER_THREAD_REGS 0x4080) (replicate NUM_PREGS 0)
         0 0
         (mk_float_status float_round_to_zero 3 false true false).

Definition machine_unrealized : Machine unit :=
  mk_machine (mk_cpu (mk_cs None tt) env_unrealized false 0) [].

(** Collaborators that always succeed and keep no state of their own. *)
Definition parent_reset_ok (cs : CPUState unit) : CPUState unit :=
  mk_cs None (cs_rest cs).

Definition realizefn_ok (cs : CPUState unit)
  : CPUState unit * option Error := (cs, None).

Definition init_vcpu_ok (cs : CPUState unit) : CPUState unit := cs.

(** Only the program counter is written: [after] differs from [before] in
    [gpr[HEX_REG_PC]], which holds [v], and nowhere else. *)
Definition only_pc_written (before after : CPUHexagonState) (v : Z) : Prop :=
  gpr after !!! HEX_REG_PC = v /\
  (forall i : nat, i <> HEX_REG_PC -> gpr after !!! i = gpr before !!! i) /\
  length (gpr after) = length (gpr before) /\
  pred after = pred before /\
  fp_status after = fp_status before /\
  last_pc_dumped after = last_pc_dumped before /\
  stack_start after = stack_start before.

(** The environment a reset leaves behind. *)
Definition reset_env (env : CPUHexagonState) : CPUHexagonState :=
  set_fp_status
    (set_float_detect_tininess float_tininess_before_rounding
       (set_default_nan_mode true (fp_status env)))
    env.

(** [machine_unrealized] after a realization in which every collaborator
    succeeds. *)
Definition machine_realized : Machine unit :=
  final (hexagon_cpu_realize parent_reset_ok realizefn_ok init_vcpu_ok
                             realizefn_ok machine_unrealized).

(** ** Runs of several calls *)

(** [n] dumps in a row to the same stream, nothing else in between. *)
Fixpoint dumps {R} (n : nat) (cpu : HexagonCPU R) (f : FILE)
  : HexagonCPU R * FILE :=
  match n with
  | O => (cpu, f)
  | S n' =>
      let d := hexagon_dump cpu f in
      dumps n' (fst d) (snd d)
  end.

(** Predicate registers that hold more than a byte each. *)
Definition env_wide_preds : CPUHexagonState :=
  mk_env (replicate TOTAL_PER_THREAD_REGS 0)
         [0x101; 0xabcd02; 0xffffff03; 0x7f04] 0 0 fp_status_zero.

(** A core with the stack adjustment switched on whose stack base was
    never recorded. *)
Definition cpu_no_stack_base : HexagonCPU unit :=
  mk_cpu (mk_cs None tt)
         (mk_env (replicate TOTAL_PER_THREAD_REGS 0x800)
                 (replicate NUM_PREGS 0) 0 0 fp_status_zero)
         false 0x100.

(** [cpu_stack] with the compatibility mode on. *)
Definition cpu_stack_compat : HexagonCPU unit :=
  mk_cpu (mk_cs None tt) env_stack true 0x100.

(** Two CPU objects agree on everything a dump reads. *)
Definition same_dump_inputs {R1 R2} (c1 : HexagonCPU R1) (c2 : HexagonCPU R2)
  : Prop :=
  gpr (env c1) = gpr (env c2) /\
  pred (env c1) = pred (env c2) /\
  stack_start (env c1) = stack_start (env c2) /\
  lldb_stack_adjust c1 = lldb_stack_adjust c2.

(** Collaborators that report an error. *)
Definition realizefn_fail (cs : CPUState unit)
  : CPUState unit * option Error := (cs, Some "realize failed"%string).

(** ** The documented dump format, spelled out *)

Definition hex_alphabet : list ascii :=
  [ "0"; "1"; "2"; "3"; "4"; "5"; "6"; "7";
    "8"; "9"; "a"; "b"; "c"; "d"; "e"; "f" ]%char.

Definition hex_char (d : Z) : ascii :=
  List.nth (Z.to_nat d) hex_alphabet "?"%char.

(** Eight lowercase hexadecimal digits, most significant first: digit
    [k] (counted from the right) is nibble [k] of the value. *)
Definition hex8 (v : Z) : string :=
  let nibble (k : Z) : ascii := hex_char ((v / 16 ^ k) mod 16) in
  String (nibble 7) (String (nibble 6) (String (nibble 5)
    (String (nibble 4) (String (nibble 3) (String (nibble 2)
      (String (nibble 1) (String (nibble 0) EmptyString))))))).

(** * Properties *)

(** ** Machine integers *)

Lemma modulus_val : modulus = 4294967296.
Proof. reflexivity. Qed.

Lemma to_target_ulong_range (z : Z) : is_target_ulong (to_target_ulong z).
Proof.
  unfold is_target_ulong, to_target_ulong.
  apply Z.mod_pos_bound. rewrite modulus_val. lia.
Qed.

Lemma to_target_ulong_small (z : Z) :
  is_target_ulong z -> to_target_ulong z = z.
Proof. intros Hz. apply Z.mod_small. exact Hz. Qed.

Lemma to_target_ulong_int32 (z : Z) :
  to_target_ulong (to_int32 z) = to_target_ulong z.
Proof.
  unfold to_target_ulong, to_int32. rewrite modulus_val.
  change (2 ^ 31) with 2147483648.
  Z.div_mod_to_equations. lia.
Qed.

Lemma land_byte (p : Z) : is_byte p -> Z.land p 0xff = p.
Proof.
  unfold is_byte. intros Hp.
  change 0xff with (Z.ones 8). rewrite Z.land_ones by lia.
  apply Z.mod_small. change (2 ^ 8) with 256. lia.
Qed.

Lemma byte_testbit_high (b n : Z) :
  is_byte b -> 8 <= n -> Z.testbit b n = false.
Proof.
  unfold is_byte. intros Hb Hn.
  rewrite <- (Z.mod_small b (2 ^ 8)) by (change (2 ^ 8) with 256; lia).
  apply Z.mod_pow2_bits_high. lia.
Qed.

(** Or-ing a byte into a word whose low byte is clear is an addition. *)
Lemma lor_shifted_byte (a b : Z) :
  is_byte b -> Z.lor (a * 256) b = a * 256 + b.
Proof.
  intros Hb.
  assert (Hland : Z.land (a * 256) b = 0).
  { apply Z.bits_inj'. intros n Hn.
    rewrite Z.land_spec, Z.bits_0.
    destruct (Z.lt_ge_cases n 8) as [Hlt | Hge].
    - change 256 with (2 ^ 8). rewrite Z.mul_pow2_bits_low by lia.
      reflexivity.
    - rewrite (byte_testbit_high b n Hb Hge). apply andb_false_r. }
  pose proof (Z.add_lor_land (a * 256) b) as Hadd.
  rewrite Hland in Hadd. lia.
Qed.

Lemma byte_of_div_mod (k z : Z) :
  0 <= k -> byte_of k z = (z / 2 ^ (8 * k)) mod 256.
Proof.
  intros Hk. unfold byte_of.
  rewrite Z.shiftr_div_pow2 by lia.
  change 255 with (Z.ones 8). rewrite Z.land_ones by lia.
  reflexivity.
Qed.

(** ** Stack-pointer adjustment *)

Section AdjustStackPtrs.

Context {R : Type}.
Implicit Types (cpu : HexagonCPU R) (value : Z).

Lemma adjust_stack_ptrs_off cpu value :
  lldb_stack_adjust cpu = 0 -> adjust_stack_ptrs cpu value = value.
Proof. unfold adjust_stack_ptrs. intros ->. reflexivity. Qed.

(** When neither window bound wraps, the window is the interval of
    integers from [stack_start - 0x10000] to [stack_start + 0x1000]. *)
Lemma adjust_stack_ptrs_window_nowrap cpu :
  0x10000 <= stack_start (env cpu) ->
  stack_start (env cpu) + 0x1000 < modulus ->
  to_target_ulong (stack_start (env cpu) - 0x10000)
    = stack_start (env cpu) - 0x10000 /\
  to_target_ulong (stack_start (env cpu) + 0x1000)
    = stack_start (env cpu) + 0x1000.
Proof.
  rewrite modulus_val. intros Hlo Hhi.
  split; apply to_target_ulong_small; unfold is_target_ulong;
    rewrite modulus_val; lia.
Qed.

(** C1, as the code has it.  [adjust_stack_ptrs] is exactly: the value
    itself when [lldb_stack_adjust] is 0; otherwise the value minus
    [lldb_stack_adjust], reduced to a 32-bit word, when the value lies in
    the inclusive window whose bounds are [stack_start - 0x10000] and
    [stack_start + 0x1000] each reduced to a 32-bit word, and the value
    itself outside that window.  When neither bound wraps and the
    subtraction does not go below zero, this is the plain interval and
    the plain difference.  With [stack_start = 0x10000000] and
    [lldb_stack_adjust = 0x100]: [0x10000000] gives [0x0FFFFF00], the
    lower edge [0x0FFF0000] gives [0x0FFEFF00], and [0x0FFF0000 - 1] is
    unchanged. *)
Theorem adjust_stack_ptrs_exact cpu value :
  let stackBase := stack_start (env cpu) in
  let stackTraceAdjustment := lldb_stack_adjust cpu in
  let window v :=
    to_target_ulong (stackBase - 0x10000) <= v
    <= to_target_ulong (stackBase + 0x1000) in
  (stackTraceAdjustment = 0 -> adjust_stack_ptrs cpu value = value) /\
  (stackTraceAdjustment <> 0 -> window value ->
   adjust_stack_ptrs cpu value
     = to_target_ulong (value - stackTraceAdjustment)) /\
  (stackTraceAdjustment <> 0 -> ~ window value ->
   adjust_stack_ptrs cpu value = value) /\
  (0x10000 <= stackBase -> stackBase + 0x1000 < modulus ->
   0 < stackTraceAdjustment <= value ->
   stackBase - 0x10000 <= value <= stackBase + 0x1000 ->
   adjust_stack_ptrs cpu value = value - stackTraceAdjustment) /\
  (stackBase = 0x10000000 -> stackTraceAdjustment = 0x100 ->
   adjust_stack_ptrs cpu 0x10000000 = 0x0FFFFF00 /\
   adjust_stack_ptrs cpu 0x0FFF0000 = 0x0FFEFF00 /\
   adjust_stack_ptrs cpu (0x0FFF0000 - 1) = 0x0FFF0000 - 1).
Proof.
  cbv zeta.
  assert (Hin : lldb_stack_adjust cpu <> 0 ->
                to_target_ulong (stack_start (env cpu) - 0x10000) <= value
                <= to_target_ulong (stack_start (env cpu) + 0x1000) ->
                adjust_stack_ptrs cpu value
                = to_target_ulong (value - lldb_stack_adjust cpu)).
  { intros Hadj [Hlo Hhi]. unfold adjust_stack_ptrs.
    apply Z.eqb_neq in Hadj. rewrite Hadj.
    replace (_ >=? value) with true by (symmetry; rewrite Z.geb_leb; lia).
    replace (value >=? _) with true by (symmetry; rewrite Z.geb_leb; lia).
    reflexivity. }
  split; [ | split; [ | split; [ | split ] ] ].
  - apply adjust_stack_ptrs_off.
  - exact Hin.
  - intros Hadj Hout. unfold adjust_stack_ptrs.
    apply Z.eqb_neq in Hadj. rewrite Hadj.
    destruct (_ >=? value) eqn:Hhi; [ | reflexivity ].
    destruct (value >=? _) eqn:Hlo; [ | reflexivity ].
    rewrite Z.geb_leb in Hhi, Hlo. exfalso. apply Hout. lia.
  - intros Hlo Hhi Hadj Hwin.
    destruct (adjust_stack_ptrs_window_nowrap cpu Hlo Hhi) as [Elo Ehi].
    rewrite Hin by (rewrite ?Elo, ?Ehi; lia).
    apply to_target_ulong_small. unfold is_target_ulong. lia.
  - intros Hbase Hadj. unfold adjust_stack_ptrs.
    rewrite Hbase, Hadj. repeat split.
Qed.

End AdjustStackPtrs.

(** C1 fails as stated: with no stack base recorded ([stack_start = 0])
    and [lldb_stack_adjust = 0x100], the value [0x800] lies in the
    interval of integers from [0 - 0x10000] to [0 + 0x1000], yet it is
    returned unchanged and not as [0x800 - 0x100]: the lower bound,
    computed as a 32-bit word, is [0xFFFF0000]. *)
Lemma adjust_stack_ptrs_counterexample :
  stack_start (env cpu_no_stack_base) = 0 /\
  lldb_stack_adjust cpu_no_stack_base = 0x100 /\
  stack_start (env cpu_no_stack_base) - 0x10000 <= 0x800
    <= stack_start (env cpu_no_stack_base) + 0x1000 /\
  adjust_stack_ptrs cpu_no_stack_base 0x800 = 0x800 /\
  adjust_stack_ptrs cpu_no_stack_base 0x800
    <> 0x800 - lldb_stack_adjust cpu_no_stack_base /\
  to_target_ulong (stack_start (env cpu_no_stack_base) - 0x10000)
    = 0xFFFF0000.
Proof.
  repeat split; try reflexivity; try (cbn; lia).
  vm_compute. discriminate.
Qed.

(** ** The packed predicate register *)

Lemma land_255_byte (p : Z) : is_byte (Z.land p 0xff).
Proof.
  unfold is_byte. change 0xff with (Z.ones 8).
  rewrite Z.land_ones by lia. change (2 ^ 8) with 256.
  apply Z.mod_pos_bound. lia.
Qed.

(** One iteration of the loop of [read_p3_0], seen as an unsigned word:
    the word moves up by one byte, dropping its top byte, and the masked
    predicate becomes the low byte. *)
Lemma read_p3_0_step (c p : Z) :
  to_target_ulong
    (to_int32 (Z.lor (to_target_ulong (to_int32 (Z.shiftl c 8)))
                     (Z.land p 0xff)))
  = (to_target_ulong c mod 2 ^ 24) * 256 + Z.land p 0xff.
Proof.
  pose proof (land_255_byte p) as Hb. unfold is_byte in Hb.
  rewrite !to_target_ulong_int32.
  rewrite Z.shiftl_mul_pow2 by lia. change (2 ^ 8) with 256.
  assert (Hmul : to_target_ulong (c * 256)
                 = (to_target_ulong c mod 2 ^ 24) * 256).
  { unfold to_target_ulong. rewrite modulus_val.
    change (2 ^ 24) with 16777216.
    Z.div_mod_to_equations. lia. }
  rewrite Hmul, lor_shifted_byte by exact Hb.
  apply to_target_ulong_small. unfold is_target_ulong.
  rewrite modulus_val. change (2 ^ 24) with 16777216.
  Z.div_mod_to_equations. lia.
Qed.

Lemma read_p3_0_range (env : CPUHexagonState) :
  is_target_ulong (read_p3_0 env).
Proof. apply to_target_ulong_range. Qed.

(** The packed word, for any contents of the four predicate registers. *)
Lemma read_p3_0_masked (env : CPUHexagonState) (p0 p1 p2 p3 : Z) :
  pred env = [p0; p1; p2; p3] ->
  read_p3_0 env
  = Z.land p0 0xff + 256 * Z.land p1 0xff + 65536 * Z.land p2 0xff
    + 16777216 * Z.land p3 0xff.
Proof.
  intros Hpred. unfold read_p3_0. rewrite Hpred.
  cbn [read_p3_0_loop NUM_PREGS lookup_total list_lookup_total].
  rewrite !read_p3_0_step.
  pose proof (land_255_byte p0) as H0. pose proof (land_255_byte p1) as H1.
  pose proof (land_255_byte p2) as H2. pose proof (land_255_byte p3) as H3.
  unfold is_byte in *.
  change (to_target_ulong 0) with 0. change (2 ^ 24) with 16777216.
  change (0 mod 16777216) with 0.
  Z.div_mod_to_equations. lia.
Qed.

Lemma read_p3_0_value (env : CPUHexagonState) (p0 p1 p2 p3 : Z) :
  is_byte p0 -> is_byte p1 -> is_byte p2 -> is_byte p3 ->
  pred env = [p0; p1; p2; p3] ->
  read_p3_0 env = p0 + 256 * p1 + 65536 * p2 + 16777216 * p3.
Proof.
  intros H0 H1 H2 H3 Hpred.
  rewrite (read_p3_0_masked env p0 p1 p2 p3 Hpred).
  rewrite !land_byte by assumption. reflexivity.
Qed.

(** C3. For all byte values [p0], [p1], [p2], [p3] of the four predicate
    registers, [read_p3_0] returns a word whose byte 0 (least significant)
    is [p0], byte 1 is [p1], byte 2 is [p2] and byte 3 is [p3], and whose
    bits above bit 31 are all zero. *)
Theorem read_p3_0_bytes (env : CPUHexagonState) (p0 p1 p2 p3 : Z) :
  is_byte p0 -> is_byte p1 -> is_byte p2 -> is_byte p3 ->
  pred env = [p0; p1; p2; p3] ->
  byte_of 0 (read_p3_0 env) = p0 /\
  byte_of 1 (read_p3_0 env) = p1 /\
  byte_of 2 (read_p3_0 env) = p2 /\
  byte_of 3 (read_p3_0 env) = p3 /\
  (forall n : Z, 31 < n -> Z.testbit (read_p3_0 env) n = false).
Proof.
  intros H0 H1 H2 H3 Hpred.
  assert (Hhigh : forall n : Z, 31 < n -> Z.testbit (read_p3_0 env) n = false).
  { intros n Hn. unfold read_p3_0, to_target_ulong, modulus, bits.
    apply Z.mod_pow2_bits_high. lia. }
  refine (conj _ (conj _ (conj _ (conj _ Hhigh))));
    rewrite byte_of_div_mod by lia;
    rewrite (read_p3_0_value env p0 p1 p2 p3 H0 H1 H2 H3 Hpred);
    unfold is_byte in *.
  - change (2 ^ (8 * 0)) with 1. Z.div_mod_to_equations. lia.
  - change (2 ^ (8 * 1)) with 256. Z.div_mod_to_equations. lia.
  - change (2 ^ (8 * 2)) with 65536. Z.div_mod_to_equations. lia.
  - change (2 ^ (8 * 3)) with 16777216. Z.div_mod_to_equations. lia.
Qed.

Lemma read_p3_0_bytes_witness :
  byte_of 0 (read_p3_0 env_preds) = 0x01 /\
  byte_of 1 (read_p3_0 env_preds) = 0xff /\
  byte_of 2 (read_p3_0 env_preds) = 0x80 /\
  byte_of 3 (read_p3_0 env_preds) = 0xfe /\
  (forall n : Z, 31 < n -> Z.testbit (read_p3_0 env_preds) n = false).
Proof.
  apply (read_p3_0_bytes env_preds 0x01 0xff 0x80 0xfe);
    try (unfold is_byte; lia).
  reflexivity.
Defined.

(** ** Register dump *)

(** The constants of [HexReg] index [hexagon_regnames] at the names the
    dump is documented to print. *)
Lemma HEX_REG_names :
  length hexagon_regnames = TOTAL_PER_THREAD_REGS /\
  take 32 hexagon_regnames = gpr_names /\
  (fun i => hexagon_regnames !!! i)
    <$> [HEX_REG_SA0; HEX_REG_LC0; HEX_REG_SA1; HEX_REG_LC1; HEX_REG_M0;
         HEX_REG_M1; HEX_REG_USR; HEX_REG_P3_0; HEX_REG_GP; HEX_REG_UGP;
         HEX_REG_PC]
  = ["sa0"; "lc0"; "sa1"; "lc1"; "m0"; "m1"; "usr"; "p3_0"; "gp"; "ugp";
     "pc"]%string.
Proof. repeat split. Qed.

Lemma hex_digit_char (d : Z) : 0 <= d < 16 -> hex_digit d = hex_char d.
Proof.
  intros Hd.
  assert (Hcases : d = 0 \/ d = 1 \/ d = 2 \/ d = 3 \/ d = 4 \/ d = 5
                   \/ d = 6 \/ d = 7 \/ d = 8 \/ d = 9 \/ d = 10 \/ d = 11
                   \/ d = 12 \/ d = 13 \/ d = 14 \/ d = 15) by lia.
  repeat (destruct Hcases as [-> | Hcases]; [ reflexivity | ]).
  subst d. reflexivity.
Qed.

Lemma hex_digit_nibble (x y : Z) :
  x = y -> hex_digit (x mod 16) = hex_char (y mod 16).
Proof.
  intros ->. apply hex_digit_char. apply Z.mod_pos_bound. lia.
Qed.

(** The format the code prints with is the eight-digit format [hex8]. *)
Lemma TARGET_FMT_lx_hex8 (v : Z) : TARGET_FMT_lx v = hex8 v.
Proof.
  unfold TARGET_FMT_lx, hex8. cbn [hex_digits].
  repeat match goal with
         | |- String _ _ = String _ _ =>
             apply (f_equal2 String); [ apply hex_digit_nibble | ]
         end;
    try reflexivity;
    rewrite ?Z.div_div by lia;
    first [ reflexivity | symmetry; apply Z.div_1_r ].
Qed.

Lemma reg_line_text (name : string) (value : Z) :
  reg_line name value
  = ("  " +:+ name +:+ " = 0x" +:+ hex8 value
     +:+ String "010" EmptyString)%string.
Proof. unfold reg_line. rewrite TARGET_FMT_lx_hex8. reflexivity. Qed.

Section DumpProperties.

Context {R : Type}.
Implicit Types (cpu : HexagonCPU R) (f : FILE).

Lemma print_reg_gpr cpu f (i : nat) :
  (i < 32)%nat ->
  print_reg f cpu i
  = f ++ [reg_line (hexagon_regnames !!! i)
                   (adjust_stack_ptrs cpu (gpr (env cpu) !!! i))].
Proof.
  intros Hi. unfold print_reg, qemu_fprintf.
  replace (i =? HEX_REG_P3_0)%nat with false
    by (symmetry; apply Nat.eqb_neq; unfold HEX_REG_P3_0; lia).
  replace (i <? 32)%nat with true by (symmetry; apply Nat.ltb_lt; exact Hi).
  reflexivity.
Qed.

Lemma print_reg_control cpu f (i : nat) :
  (32 <= i)%nat -> i <> HEX_REG_P3_0 ->
  print_reg f cpu i
  = f ++ [reg_line (hexagon_regnames !!! i) (gpr (env cpu) !!! i)].
Proof.
  intros Hi Hne. unfold print_reg, qemu_fprintf.
  replace (i =? HEX_REG_P3_0)%nat with false
    by (symmetry; apply Nat.eqb_neq; exact Hne).
  replace (i <? 32)%nat with false by (symmetry; apply Nat.ltb_ge; exact Hi).
  reflexivity.
Qed.

Lemma print_reg_p3_0 cpu f :
  print_reg f cpu HEX_REG_P3_0 = f ++ [reg_line "p3_0" (read_p3_0 (env cpu))].
Proof. reflexivity. Qed.

(** The [for] loop over the general-purpose registers. *)
Lemma print_gprs cpu (l : list nat) :
  Forall (fun i => (i < 32)%nat) l ->
  forall f,
    fold_left (fun f i => print_reg f cpu i) l f
    = f ++ map (fun i => reg_line (hexagon_regnames !!! i)
                           (adjust_stack_ptrs cpu (gpr (env cpu) !!! i))) l.
Proof.
  induction 1 as [ | i l Hi _ IH ]; intros f; cbn [fold_left map].
  - symmetry. apply app_nil_r.
  - rewrite IH, (print_reg_gpr cpu f i Hi), <- app_assoc. reflexivity.
Qed.

Lemma seq_0_32_lt : Forall (fun i => (i < 32)%nat) (seq 0 32).
Proof. apply Forall_forall. intros i Hi. apply elem_of_seq in Hi. lia. Qed.

Lemma dump_registers_lines cpu f :
  dump_registers cpu f = f ++ expected_dump_lines cpu.
Proof.
  unfold dump_registers.
  rewrite (print_gprs cpu (seq 0 32) seq_0_32_lt).
  rewrite !print_reg_p3_0.
  rewrite !print_reg_control by (cbv; lia).
  unfold qemu_fprintf, expected_dump_lines.
  rewrite <- !app_assoc. reflexivity.
Qed.

Lemma expected_dump_lines_length cpu :
  length (expected_dump_lines cpu) = 49%nat.
Proof. reflexivity. Qed.

Lemma app_lines_ne cpu f : f ++ expected_dump_lines cpu <> f.
Proof.
  intros Heq. apply (f_equal length) in Heq.
  rewrite length_app, expected_dump_lines_length in Heq. lia.
Qed.

Lemma hexagon_dump_suppressed cpu f :
  dump_suppressed cpu = true -> hexagon_dump cpu f = (cpu, f).
Proof.
  unfold dump_suppressed, hexagon_dump.
  destruct (lldb_compat cpu); [ | discriminate ].
  cbn [andb]. intros ->. reflexivity.
Qed.

(** The dump reads neither [last_pc_dumped] nor the parent object. *)
Lemma expected_dump_lines_last_pc cpu (v : Z) :
  expected_dump_lines (set_env (set_last_pc_dumped v (env cpu)) cpu)
  = expected_dump_lines cpu.
Proof.
  unfold expected_dump_lines, adjust_stack_ptrs, read_p3_0.
  cbn [set_env set_last_pc_dumped env gpr pred stack_start
       lldb_stack_adjust].
  reflexivity.
Qed.

Lemma hexagon_dump_not_suppressed cpu f :
  dump_suppressed cpu = false ->
  hexagon_dump cpu f
  = (if lldb_compat cpu
     then set_env (set_last_pc_dumped (gpr (env cpu) !!! HEX_REG_PC)
                                      (env cpu)) cpu
     else cpu,
     f ++ expected_dump_lines cpu).
Proof.
  unfold dump_suppressed, hexagon_dump.
  destruct (lldb_compat cpu); cbn [andb].
  - intros ->.
    rewrite dump_registers_lines, expected_dump_lines_last_pc. reflexivity.
  - intros _. rewrite dump_registers_lines. reflexivity.
Qed.

(** C9. Every dump that is not suppressed writes exactly: the header
    ["General Purpose Registers = {"], one line ["  <name> = 0x<hex>"]
    (eight lowercase hexadecimal digits) for each of [r0] .. [r31] in
    index order, then for [sa0], [lc0], [sa1], [lc1], [m0], [m1], [usr],
    [p3_0], [gp], [ugp], [pc], then the four placeholder lines of the
    user-only build ([cause] 0xdb, [badva] 0, [cs0] 0, [cs1] 0), then the
    footer ["}"]; every line ends in a newline.  The text is spelled out
    in the statement: general-purpose registers show their adjusted
    value, control registers the stored one, [p3_0] the packed
    predicates. *)
Theorem hexagon_dump_lines cpu f :
  dump_suppressed cpu = false ->
  let nl : string := String "010" EmptyString in
  let line (name : string) (value : Z) : string :=
    ("  " +:+ name +:+ " = 0x" +:+ hex8 value +:+ nl)%string in
  let gpr_line (name : string) (i : nat) : string :=
    line name (adjust_stack_ptrs cpu (gpr (env cpu) !!! i)) in
  let ctl_line (name : string) (i : nat) : string :=
    line name (gpr (env cpu) !!! i) in
  snd (hexagon_dump cpu f)
  = f ++
    [ ("General Purpose Registers = {" +:+ nl)%string;
      gpr_line "r0" 0%nat;
      gpr_line "r1" 1%nat;
      gpr_line "r2" 2%nat;
      gpr_line "r3" 3%nat;
      gpr_line "r4" 4%nat;
      gpr_line "r5" 5%nat;
      gpr_line "r6" 6%nat;
      gpr_line "r7" 7%nat;
      gpr_line "r8" 8%nat;
      gpr_line "r9" 9%nat;
      gpr_line "r10" 10%nat;
      gpr_line "r11" 11%nat;
      gpr_line "r12" 12%nat;
      gpr_line "r13" 13%nat;
      gpr_line "r14" 14%nat;
      gpr_line "r15" 15%nat;
      gpr_line "r16" 16%nat;
      gpr_line "r17" 17%nat;
      gpr_line "r18" 18%nat;
      gpr_line "r19" 19%nat;
      gpr_line "r20" 20%nat;
      gpr_line "r21" 21%nat;
      gpr_line "r22" 22%nat;
      gpr_line "r23" 23%nat;
      gpr_line "r24" 24%nat;
      gpr_line "r25" 25%nat;
      gpr_line "r26" 26%nat;
      gpr_line "r27" 27%nat;
      gpr_line "r28" 28%nat;
      gpr_line "r29" 29%nat;
      gpr_line "r30" 30%nat;
      gpr_line "r31" 31%nat;
      ctl_line "sa0" 32%nat;
      ctl_line "lc0" 33%nat;
      ctl_line "sa1" 34%nat;
      ctl_line "lc1" 35%nat;
      ctl_line "m0" 38%nat;
      ctl_line "m1" 39%nat;
      ctl_line "usr" 40%nat;
      line "p3_0" (read_p3_0 (env cpu));
      ctl_line "gp" 43%nat;
      ctl_line "ugp" 42%nat;
      ctl_line "pc" 41%nat;
      ("  cause = 0x000000db" +:+ nl)%string;
      ("  badva = 0x00000000" +:+ nl)%string;
      ("  cs0 = 0x00000000" +:+ nl)%string;
      ("  cs1 = 0x00000000" +:+ nl)%string;
      ("}" +:+ nl)%string ] /\
  hex8 0x01234567 = "01234567"%string /\
  hex8 0x89abcdef = "89abcdef"%string.
Proof.
  intros Hns. cbv zeta.
  split; [ | split; reflexivity ].
  rewrite (hexagon_dump_not_suppressed cpu f Hns). cbn [snd].
  unfold expected_dump_lines, gpr_names. cbv zeta.
  cbn [imap compose app].
  rewrite !reg_line_text. reflexivity.
Qed.


(** C4, as the code has it.  With [lldb_compat] set and the program
    counter unchanged, the second of two dumps in a row writes nothing;
    the first writes output exactly when [last_pc_dumped] differed from
    the program counter beforehand.  With [lldb_compat] clear both dumps
    write output. *)
Theorem hexagon_dump_twice cpu f :
  let first := hexagon_dump cpu f in
  let second := hexagon_dump (fst first) (snd first) in
  (lldb_compat cpu = true ->
   snd second = snd first /\
   (snd first <> f
    <-> gpr (env cpu) !!! HEX_REG_PC <> last_pc_dumped (env cpu))) /\
  (lldb_compat cpu = false ->
   snd first <> f /\ snd second <> snd first).
Proof.
  cbv zeta. destruct (dump_suppressed cpu) eqn:Hs.
  - rewrite (hexagon_dump_suppressed cpu f Hs). cbn [fst snd].
    rewrite (hexagon_dump_suppressed cpu f Hs). cbn [snd].
    unfold dump_suppressed in Hs. apply andb_true_iff in Hs as [Hc Heq].
    apply Z.eqb_eq in Heq. split; intros Hc'; [ | congruence ].
    split; [ reflexivity | ]. split; intros Hx; contradiction.
  - rewrite (hexagon_dump_not_suppressed cpu f Hs). cbn [fst snd].
    split; intros Hc; rewrite Hc.
    + split.
      * rewrite hexagon_dump_suppressed; [ reflexivity | ].
        unfold dump_suppressed.
        cbn [set_env set_last_pc_dumped lldb_compat env gpr last_pc_dumped].
        rewrite Hc, Z.eqb_refl. reflexivity.
      * split; intros _; [ | apply app_lines_ne ].
        unfold dump_suppressed in Hs. rewrite Hc in Hs. cbn [andb] in Hs.
        apply Z.eqb_neq. exact Hs.
    + split; [ apply app_lines_ne | ].
      rewrite (hexagon_dump_not_suppressed cpu _ Hs). cbn [snd].
      apply app_lines_ne.
Qed.

(** C5, as the code has it.  Writing [last_pc_dumped] is the only effect
    of a dump on the CPU object.  With [lldb_compat] set, after the dump
    [last_pc_dumped] is the program counter (written by every dump that
    produces output, already equal when the dump is suppressed).  With
    [lldb_compat] clear the dump does not write it: the CPU object is
    left as it was. *)
Theorem hexagon_dump_effect cpu f :
  let cpu' := fst (hexagon_dump cpu f) in
  (parent_obj cpu' = parent_obj cpu /\
   lldb_compat cpu' = lldb_compat cpu /\
   lldb_stack_adjust cpu' = lldb_stack_adjust cpu /\
   gpr (env cpu') = gpr (env cpu) /\
   pred (env cpu') = pred (env cpu) /\
   stack_start (env cpu') = stack_start (env cpu) /\
   fp_status (env cpu') = fp_status (env cpu)) /\
  (lldb_compat cpu = true ->
   last_pc_dumped (env cpu') = gpr (env cpu) !!! HEX_REG_PC) /\
  (lldb_compat cpu = false -> cpu' = cpu).
Proof.
  cbv zeta. destruct (dump_suppressed cpu) eqn:Hs.
  - rewrite (hexagon_dump_suppressed cpu f Hs). cbn [fst].
    unfold dump_suppressed in Hs. apply andb_true_iff in Hs as [Hc Heq].
    apply Z.eqb_eq in Heq.
    split; [ repeat split | split; intros Hc'; [ congruence | reflexivity ] ].
  - rewrite (hexagon_dump_not_suppressed cpu f Hs). cbn [fst].
    destruct (lldb_compat cpu) eqn:Hc.
    + split; [ repeat split; exact Hc | ].
      split; [ intros _; reflexivity | discriminate ].
    + split; [ repeat split; exact Hc | ].
      split; [ discriminate | intros _; reflexivity ].
Qed.

End DumpProperties.

Lemma hexagon_dump_lines_witness :
  let nl : string := String "010" EmptyString in
  snd (hexagon_dump cpu_stack [])
  = [] ++
    [ ("General Purpose Registers = {" +:+ nl)%string;
      ("  r0 = 0x00000000" +:+ nl)%string;
      ("  r1 = 0x00000000" +:+ nl)%string;
      ("  r2 = 0x00000000" +:+ nl)%string;
      ("  r3 = 0x00000000" +:+ nl)%string;
      ("  r4 = 0x00000000" +:+ nl)%string;
      ("  r5 = 0x00000000" +:+ nl)%string;
      ("  r6 = 0x00000000" +:+ nl)%string;
      ("  r7 = 0x00000000" +:+ nl)%string;
      ("  r8 = 0x00000000" +:+ nl)%string;
      ("  r9 = 0x00000000" +:+ nl)%string;
      ("  r10 = 0x00000000" +:+ nl)%string;
      ("  r11 = 0x00000000" +:+ nl)%string;
      ("  r12 = 0x00000000" +:+ nl)%string;
      ("  r13 = 0x00000000" +:+ nl)%string;
      ("  r14 = 0x00000000" +:+ nl)%string;
      ("  r15 = 0x00000000" +:+ nl)%string;
      ("  r16 = 0x00000000" +:+ nl)%string;
      ("  r17 = 0x00000000" +:+ nl)%string;
      ("  r18 = 0x00000000" +:+ nl)%string;
      ("  r19 = 0x00000000" +:+ nl)%string;
      ("  r20 = 0x00000000" +:+ nl)%string;
      ("  r21 = 0x00000000" +:+ nl)%string;
      ("  r22 = 0x00000000" +:+ nl)%string;
      ("  r23 = 0x00000000" +:+ nl)%string;
      ("  r24 = 0x00000000" +:+ nl)%string;
      ("  r25 = 0x00000000" +:+ nl)%string;
      ("  r26 = 0x00000000" +:+ nl)%string;
      ("  r27 = 0x00000000" +:+ nl)%string;
      ("  r28 = 0x00000000" +:+ nl)%string;
      ("  r29 = 0x0fffff00" +:+ nl)%string;
      ("  r30 = 0x00000000" +:+ nl)%string;
      ("  r31 = 0x00000000" +:+ nl)%string;
      ("  sa0 = 0x00000000" +:+ nl)%string;
      ("  lc0 = 0x00000000" +:+ nl)%string;
      ("  sa1 = 0x00000000" +:+ nl)%string;
      ("  lc1 = 0x00000000" +:+ nl)%string;
      ("  m0 = 0x00000000" +:+ nl)%string;
      ("  m1 = 0x00000000" +:+ nl)%string;
      ("  usr = 0x00000000" +:+ nl)%string;
      ("  p3_0 = 0x00000000" +:+ nl)%string;
      ("  gp = 0x00000000" +:+ nl)%string;
      ("  ugp = 0x00000000" +:+ nl)%string;
      ("  pc = 0x10000000" +:+ nl)%string;
      ("  cause = 0x000000db" +:+ nl)%string;
      ("  badva = 0x00000000" +:+ nl)%string;
      ("  cs0 = 0x00000000" +:+ nl)%string;
      ("  cs1 = 0x00000000" +:+ nl)%string;
      ("}" +:+ nl)%string ] /\
  hex8 0x01234567 = "01234567"%string /\
  hex8 0x89abcdef = "89abcdef"%string.
Proof. apply (hexagon_dump_lines cpu_stack []). reflexivity. Defined.



(** C4 fails as stated: on a core whose [last_pc_dumped] already equals
    the program counter (as after construction, both zero), the first
    dump with [lldb_compat] set writes nothing. *)
Lemma hexagon_dump_twice_counterexample :
  lldb_compat (cpu_zero true 0) = true /\
  snd (hexagon_dump (cpu_zero true 0) []) = [].
Proof. split; reflexivity. Qed.

(** C5 fails as stated: with [lldb_compat] clear the dump writes output
    and leaves [last_pc_dumped] at 0 although the program counter is
    [0x10000000]. *)
Lemma hexagon_dump_effect_counterexample :
  lldb_compat cpu_stack = false /\
  length (snd (hexagon_dump cpu_stack [])) = 49%nat /\
  gpr (env (fst (hexagon_dump cpu_stack []))) !!! HEX_REG_PC = 0x10000000 /\
  last_pc_dumped (env (fst (hexagon_dump cpu_stack []))) = 0.
Proof. repeat split. Qed.

(** ** Fault classification *)

Section FaultProperties.

Context {R : Type}.

(** C6. An instruction fetch, a data load and a data store are given
    three pairwise different causes ([HEX_EXCP_FETCH_NO_UPAGE],
    [HEX_EXCP_PRIV_NO_UREAD], [HEX_EXCP_PRIV_NO_UWRITE]); the cause is
    stored in [exception_index], the restart address is handed to
    [cpu_loop_exit_restore], and every call ends in that one exit: it
    never returns to its caller. *)
Theorem hexagon_tlb_fill_classifies (address size : Z)
  (access_type : MMUAccessType) (mmu_idx : Z) (probe : bool) (retaddr : Z)
  (m : Machine R) :
  (exists m' : Machine R,
     hexagon_tlb_fill address size access_type mmu_idx probe retaddr m
       = Exits m' retaddr /\
     exception_index (parent_obj (m_cpu m')) = Some (classify access_type) /\
     cs_rest (parent_obj (m_cpu m')) = cs_rest (parent_obj (m_cpu m)) /\
     env (m_cpu m') = env (m_cpu m) /\
     m_calls m' = m_calls m ++ [CALL_cpu_loop_exit_restore retaddr]) /\
  (forall (b : bool) (m' : Machine R),
     hexagon_tlb_fill address size access_type mmu_idx probe retaddr m
       <> Returns b m') /\
  classify MMU_INST_FETCH = HEX_EXCP_FETCH_NO_UPAGE /\
  classify MMU_DATA_LOAD = HEX_EXCP_PRIV_NO_UREAD /\
  classify MMU_DATA_STORE = HEX_EXCP_PRIV_NO_UWRITE /\
  classify MMU_INST_FETCH <> classify MMU_DATA_LOAD /\
  classify MMU_INST_FETCH <> classify MMU_DATA_STORE /\
  classify MMU_DATA_LOAD <> classify MMU_DATA_STORE.
Proof.
  split; [ | split ].
  - destruct access_type; eexists; (split; [ reflexivity | ]);
      repeat split.
  - intros b m'. destruct access_type; discriminate.
  - repeat split; discriminate.
Qed.

End FaultProperties.

(** ** Lifecycle *)

Section LifecycleProperties.

Context {R : Type}.
Variable parent_reset : CPUState R -> CPUState R.
Variable cpu_exec_realizefn : CPUState R -> CPUState R * option Error.
Variable qemu_init_vcpu : CPUState R -> CPUState R.
Variable parent_realize : CPUState R -> CPUState R * option Error.

Lemma reset_env_idempotent (e : CPUHexagonState) :
  reset_env (reset_env e) = reset_env e.
Proof. reflexivity. Qed.

(** A reset always returns; this is the machine it returns. *)
Lemma hexagon_cpu_reset_returns (m : Machine R) :
  hexagon_cpu_reset parent_reset m
  = Returns tt
      (mk_machine
         (mk_cpu (parent_reset (parent_obj (m_cpu m)))
                 (reset_env (env (m_cpu m)))
                 (lldb_compat (m_cpu m))
                 (lldb_stack_adjust (m_cpu m)))
         (m_calls m ++ [CALL_parent_reset])).
Proof. reflexivity. Qed.

Lemma resets_returns (n : nat) :
  forall m : Machine R,
    exists m' : Machine R,
      resets parent_reset (S n) m = Returns tt m' /\
      env (m_cpu m') = reset_env (env (m_cpu m)) /\
      lldb_compat (m_cpu m') = lldb_compat (m_cpu m) /\
      lldb_stack_adjust (m_cpu m') = lldb_stack_adjust (m_cpu m).
Proof.
  induction n as [ | n IH ]; intros m.
  - eexists. split; [ reflexivity | repeat split ].
  - change (resets parent_reset (S (S n)) m)
      with (bind (hexagon_cpu_reset parent_reset)
                 (fun _ => resets parent_reset (S n)) m).
    unfold bind at 1. rewrite hexagon_cpu_reset_returns.
    destruct (IH (mk_machine
         (mk_cpu (parent_reset (parent_obj (m_cpu m)))
                 (reset_env (env (m_cpu m)))
                 (lldb_compat (m_cpu m))
                 (lldb_stack_adjust (m_cpu m)))
         (m_calls m ++ [CALL_parent_reset])))
      as (m' & Hrun & Henv & Hc & Ha).
    exists m'. split; [ exact Hrun | ].
    cbn [m_cpu env lldb_compat lldb_stack_adjust] in Henv, Hc, Ha.
    rewrite reset_env_idempotent in Henv. repeat split; assumption.
Qed.

(** C7. Whatever the floating-point configuration and the registers
    were, [hexagon_cpu_reset] returns with default-NaN mode on and
    tininess detected before rounding, and with every general-purpose
    register, control register and predicate byte as before; any number
    of resets in a row, and a reset of a core already reset, leave the
    same architectural state and configuration as one reset. *)
Theorem hexagon_cpu_reset_effect (m : Machine R) (n : nat) :
  let once := final (hexagon_cpu_reset parent_reset m) in
  let many := final (resets parent_reset (S n) m) in
  let again := final (hexagon_cpu_reset parent_reset once) in
  hexagon_cpu_reset parent_reset m = Returns tt once /\
  default_nan_mode (fp_status (env (m_cpu once))) = true /\
  tininess_before_rounding (fp_status (env (m_cpu once))) = true /\
  gpr (env (m_cpu once)) = gpr (env (m_cpu m)) /\
  pred (env (m_cpu once)) = pred (env (m_cpu m)) /\
  last_pc_dumped (env (m_cpu once)) = last_pc_dumped (env (m_cpu m)) /\
  stack_start (env (m_cpu once)) = stack_start (env (m_cpu m)) /\
  lldb_compat (m_cpu once) = lldb_compat (m_cpu m) /\
  lldb_stack_adjust (m_cpu once) = lldb_stack_adjust (m_cpu m) /\
  resets parent_reset (S n) m = Returns tt many /\
  env (m_cpu many) = env (m_cpu once) /\
  lldb_compat (m_cpu many) = lldb_compat (m_cpu once) /\
  lldb_stack_adjust (m_cpu many) = lldb_stack_adjust (m_cpu once) /\
  env (m_cpu again) = env (m_cpu once).
Proof.
  cbv zeta. rewrite !hexagon_cpu_reset_returns.
  destruct (resets_returns n m) as (m' & Hrun & Henv & Hc & Ha).
  rewrite Hrun. cbn [final m_cpu env lldb_compat lldb_stack_adjust].
  repeat split; assumption.
Qed.

(** When the parent class's reset is idempotent, so is the reset of the
    whole CPU object. *)
Lemma hexagon_cpu_reset_idempotent_cpu (m : Machine R) :
  (forall cs, parent_reset (parent_reset cs) = parent_reset cs) ->
  m_cpu (final (hexagon_cpu_reset parent_reset
                  (final (hexagon_cpu_reset parent_reset m))))
  = m_cpu (final (hexagon_cpu_reset parent_reset m)).
Proof.
  intros Hidem. rewrite !hexagon_cpu_reset_returns.
  cbn [final m_cpu parent_obj env lldb_compat lldb_stack_adjust].
  rewrite Hidem. reflexivity.
Qed.

(** Realization always returns to its caller. *)
Lemma hexagon_cpu_realize_returns (m : Machine R) :
  exists (err : option Error) (m' : Machine R),
    hexagon_cpu_realize parent_reset cpu_exec_realizefn qemu_init_vcpu
                        parent_realize m = Returns err m'.
Proof.
  unfold hexagon_cpu_realize, bind, outside, log_call, bind.
  destruct (cpu_exec_realizefn _) as [cs1 [e | ]].
  - eexists _, _. reflexivity.
  - cbn. destruct (parent_realize _) as [cs2 err]. eexists _, _. reflexivity.
Qed.

(** When [cpu_exec_realizefn] fails, realization stops there: the error
    is handed on, nothing is scheduled and no reset runs. *)
Lemma hexagon_cpu_realize_failure (m : Machine R) (cs1 : CPUState R)
  (e : Error) :
  cpu_exec_realizefn (parent_obj (m_cpu m)) = (cs1, Some e) ->
  hexagon_cpu_realize parent_reset cpu_exec_realizefn qemu_init_vcpu
                      parent_realize m
  = Returns (Some e)
      (mk_machine (set_parent_obj cs1 (m_cpu m))
                  (m_calls m ++ [CALL_cpu_exec_realizefn])).
Proof.
  intros Hfail.
  unfold hexagon_cpu_realize, bind, outside, log_call, bind.
  cbn [m_cpu m_calls]. rewrite Hfail. reflexivity.
Qed.

(** C8, as the code has it.  A successful [hexagon_cpu_realize] does not
    write [stack_start] (nor any register); it calls, in this order,
    [cpu_exec_realizefn], [qemu_init_vcpu] (the request to schedule the
    core), [cpu_reset] (one reset, which chains to the parent class's
    reset) and last the parent class's realize; afterwards the
    floating-point status is in its reset configuration. *)
Theorem hexagon_cpu_realize_success (m m' : Machine R) :
  hexagon_cpu_realize parent_reset cpu_exec_realizefn qemu_init_vcpu
                      parent_realize m = Returns None m' ->
  stack_start (env (m_cpu m')) = stack_start (env (m_cpu m)) /\
  gpr (env (m_cpu m')) = gpr (env (m_cpu m)) /\
  pred (env (m_cpu m')) = pred (env (m_cpu m)) /\
  m_calls m'
    = m_calls m ++ [CALL_cpu_exec_realizefn; CALL_qemu_init_vcpu;
                    CALL_cpu_reset; CALL_parent_reset; CALL_parent_realize] /\
  env (m_cpu m') = reset_env (env (m_cpu m)) /\
  default_nan_mode (fp_status (env (m_cpu m'))) = true /\
  tininess_before_rounding (fp_status (env (m_cpu m'))) = true.
Proof.
  unfold hexagon_cpu_realize, bind, outside, log_call, bind.
  destruct (cpu_exec_realizefn _) as [cs1 [e | ]]; [ discriminate | ].
  cbn. destruct (parent_realize _) as [cs2 err].
  intros Hrun. injection Hrun as _ <-.
  cbn [m_cpu m_calls env set_parent_obj].
  rewrite <- !app_assoc. repeat split.
Qed.

End LifecycleProperties.

Lemma hexagon_cpu_realize_success_witness :
  stack_start (env (m_cpu machine_realized))
    = stack_start (env (m_cpu machine_unrealized)) /\
  gpr (env (m_cpu machine_realized)) = gpr (env (m_cpu machine_unrealized)) /\
  pred (env (m_cpu machine_realized))
    = pred (env (m_cpu machine_unrealized)) /\
  m_calls machine_realized
    = m_calls machine_unrealized
      ++ [CALL_cpu_exec_realizefn; CALL_qemu_init_vcpu;
          CALL_cpu_reset; CALL_parent_reset; CALL_parent_realize] /\
  env (m_cpu machine_realized) = reset_env (env (m_cpu machine_unrealized)) /\
  default_nan_mode (fp_status (env (m_cpu machine_realized))) = true /\
  tininess_before_rounding (fp_status (env (m_cpu machine_realized))) = true.
Proof.
  apply (hexagon_cpu_realize_success parent_reset_ok realizefn_ok
           init_vcpu_ok realizefn_ok machine_unrealized machine_realized).
  reflexivity.
Defined.

(** C8 fails as stated: the realization of [machine_unrealized] succeeds,
    every register (whichever stands for the stack pointer) holds
    [0x4080], and [stack_start] is still 0 afterwards. *)
Lemma hexagon_cpu_realize_counterexample :
  hexagon_cpu_realize parent_reset_ok realizefn_ok init_vcpu_ok realizefn_ok
                      machine_unrealized
    = Returns None machine_realized /\
  gpr (env (m_cpu machine_unrealized))
    = replicate TOTAL_PER_THREAD_REGS 0x4080 /\
  gpr (env (m_cpu machine_realized))
    = replicate TOTAL_PER_THREAD_REGS 0x4080 /\
  stack_start (env (m_cpu machine_realized)) = 0.
Proof. repeat split. Qed.

(** ** Program-counter entry points *)

Lemma set_gpr_only_pc (e : CPUHexagonState) (v : Z) :
  env_wf e -> only_pc_written e (set_gpr HEX_REG_PC v e) v.
Proof.
  intros [Hgpr _]. unfold only_pc_written, set_gpr. cbn [gpr pred
    fp_status last_pc_dumped stack_start].
  split; [ | split; [ | split ] ].
  - apply list_lookup_total_insert_eq. rewrite Hgpr.
    unfold HEX_REG_PC, TOTAL_PER_THREAD_REGS. lia.
  - intros i Hi. apply list_lookup_total_insert_ne. congruence.
  - apply length_insert.
  - repeat split.
Qed.

Section EntryPointProperties.

Context {R : Type}.

(** C10. [hexagon_cpu_set_pc], [hexagon_cpu_synchronize_from_tb] and
    [restore_state_to_opc] write the program-counter register and nothing
    else: every other general-purpose and control register, the predicate
    bytes, the floating-point status, [last_pc_dumped] (and [stack_start],
    the parent object and the two properties) are as before.  The value
    written is the given one as a 32-bit word, hence the given value
    itself whenever that is a machine word. *)
Theorem set_pc_only_pc (cpu : HexagonCPU R) (value : Z)
  (tb : TranslationBlock) (data : list Z) :
  env_wf (env cpu) ->
  let set := hexagon_cpu_set_pc cpu value in
  let sync := hexagon_cpu_synchronize_from_tb cpu tb in
  only_pc_written (env cpu) (env set) (to_target_ulong value) /\
  (is_target_ulong value -> gpr (env set) !!! HEX_REG_PC = value) /\
  parent_obj set = parent_obj cpu /\
  lldb_compat set = lldb_compat cpu /\
  lldb_stack_adjust set = lldb_stack_adjust cpu /\
  only_pc_written (env cpu) (env sync) (to_target_ulong (tb_pc tb)) /\
  (is_target_ulong (tb_pc tb) -> gpr (env sync) !!! HEX_REG_PC = tb_pc tb) /\
  parent_obj sync = parent_obj cpu /\
  lldb_compat sync = lldb_compat cpu /\
  lldb_stack_adjust sync = lldb_stack_adjust cpu /\
  only_pc_written (env cpu) (restore_state_to_opc (env cpu) tb data)
                  (to_target_ulong (data !!! 0%nat)) /\
  (is_target_ulong (data !!! 0%nat) ->
   gpr (restore_state_to_opc (env cpu) tb data) !!! HEX_REG_PC
     = data !!! 0%nat).
Proof.
  intros Hwf. cbv zeta.
  pose proof (set_gpr_only_pc (env cpu) (to_target_ulong value) Hwf) as Hset.
  pose proof (set_gpr_only_pc (env cpu) (to_target_ulong (tb_pc tb)) Hwf)
    as Hsync.
  pose proof (set_gpr_only_pc (env cpu) (to_target_ulong (data !!! 0%nat))
                Hwf) as Hrestore.
  unfold hexagon_cpu_set_pc, hexagon_cpu_synchronize_from_tb,
    restore_state_to_opc.
  cbn [set_env env parent_obj lldb_compat lldb_stack_adjust].
  repeat match goal with
         | |- _ /\ _ => split
         end;
    try reflexivity; try assumption;
    intros Hword;
    match goal with
    | H : only_pc_written _ _ (to_target_ulong ?v) |- _ = ?v =>
        destruct H as [-> _]; apply to_target_ulong_small; exact Hword
    end.
Qed.

End EntryPointProperties.

Lemma set_pc_only_pc_witness :
  env_wf (env (cpu_zero false 0)) /\
  only_pc_written (env (cpu_zero false 0))
                  (env (hexagon_cpu_set_pc (cpu_zero false 0) 0x10004))
                  (to_target_ulong 0x10004) /\
  gpr (env (hexagon_cpu_set_pc (cpu_zero false 0) 0x10004)) !!! HEX_REG_PC
    = 0x10004.
Proof.
  assert (Hwf : env_wf (env (cpu_zero false 0))) by (split; reflexivity).
  split; [ exact Hwf | ].
  destruct (set_pc_only_pc (cpu_zero false 0) 0x10004 (mk_tb 0x10004)
              [0x10004] Hwf) as (Hset & Hword & _).
  split; [ exact Hset | ].
  apply Hword. unfold is_target_ulong. rewrite modulus_val. lia.
Defined.

(** * Further properties of the code *)

(** ** Stack-pointer adjustment: a window that would wrap is empty *)

(** The window test of [adjust_stack_ptrs] fails for every address when
    one of the two bounds wraps. *)
Lemma wrapped_window_empty (s addr : Z) :
  is_target_ulong s ->
  s < 0x10000 \/ modulus - 0x1000 <= s ->
  (to_target_ulong (s + 0x1000) >=? addr)
  && (addr >=? to_target_ulong (s - 0x10000)) = false.
Proof.
  unfold is_target_ulong, to_target_ulong. rewrite modulus_val.
  intros Hs Hwrap.
  destruct (_ >=? addr) eqn:Hhi; [ | reflexivity ].
  destruct (addr >=? _) eqn:Hlo; [ | reflexivity ].
  exfalso. rewrite Z.geb_leb in Hhi, Hlo.
  apply Z.leb_le in Hhi, Hlo.
  revert Hhi Hlo. Z.div_mod_to_equations. lia.
Qed.

Section AdjustWindow.

Context {R : Type}.
Implicit Types (cpu : HexagonCPU R) (addr : Z).

(** When the stack base is within [0x10000] of the bottom of the address
    space, or within [0x1000] of its top, one of the two window bounds
    wraps around, the lower bound ends up above the upper bound, and no
    address is adjusted, whatever [lldb_stack_adjust] is.  A stack base
    that was never recorded (0) is such a case. *)
Theorem adjust_stack_ptrs_wrapped_window cpu addr :
  is_target_ulong (stack_start (env cpu)) ->
  stack_start (env cpu) < 0x10000
  \/ modulus - 0x1000 <= stack_start (env cpu) ->
  adjust_stack_ptrs cpu addr = addr.
Proof.
  intros Hs Hwrap. unfold adjust_stack_ptrs.
  rewrite (wrapped_window_empty _ addr Hs Hwrap).
  destruct (lldb_stack_adjust cpu =? 0); reflexivity.
Qed.

End AdjustWindow.

Lemma adjust_stack_ptrs_wrapped_window_witness :
  adjust_stack_ptrs cpu_no_stack_base 0x800 = 0x800.
Proof.
  apply (adjust_stack_ptrs_wrapped_window cpu_no_stack_base 0x800).
  - unfold is_target_ulong. rewrite modulus_val. cbn. lia.
  - left. cbn. lia.
Defined.

(** ** The packed predicate register: contents wider than a byte *)

(** Whatever the four predicate registers hold, byte [k] of the packed
    word is the low byte of predicate [k]: bits 8 and up of a predicate
    never reach the alias. *)
Theorem read_p3_0_low_bytes (env : CPUHexagonState) (p0 p1 p2 p3 : Z) :
  pred env = [p0; p1; p2; p3] ->
  byte_of 0 (read_p3_0 env) = Z.land p0 0xff /\
  byte_of 1 (read_p3_0 env) = Z.land p1 0xff /\
  byte_of 2 (read_p3_0 env) = Z.land p2 0xff /\
  byte_of 3 (read_p3_0 env) = Z.land p3 0xff.
Proof.
  intros Hpred.
  rewrite !byte_of_div_mod by lia.
  rewrite (read_p3_0_masked env p0 p1 p2 p3 Hpred).
  pose proof (land_255_byte p0) as H0. pose proof (land_255_byte p1) as H1.
  pose proof (land_255_byte p2) as H2. pose proof (land_255_byte p3) as H3.
  unfold is_byte in *.
  change (2 ^ (8 * 0)) with 1. change (2 ^ (8 * 1)) with 256.
  change (2 ^ (8 * 2)) with 65536. change (2 ^ (8 * 3)) with 16777216.
  repeat split; Z.div_mod_to_equations; lia.
Qed.

Lemma read_p3_0_low_bytes_witness :
  byte_of 0 (read_p3_0 env_wide_preds) = Z.land 0x101 0xff /\
  byte_of 1 (read_p3_0 env_wide_preds) = Z.land 0xabcd02 0xff /\
  byte_of 2 (read_p3_0 env_wide_preds) = Z.land 0xffffff03 0xff /\
  byte_of 3 (read_p3_0 env_wide_preds) = Z.land 0x7f04 0xff.
Proof.
  apply (read_p3_0_low_bytes env_wide_preds 0x101 0xabcd02 0xffffff03 0x7f04).
  reflexivity.
Defined.

(** On predicate registers that hold bytes the packing loses nothing: two
    states with the same packed word have the same four predicates. *)
Theorem read_p3_0_injective (e1 e2 : CPUHexagonState) :
  length (pred e1) = NUM_PREGS -> length (pred e2) = NUM_PREGS ->
  Forall is_byte (pred e1) -> Forall is_byte (pred e2) ->
  read_p3_0 e1 = read_p3_0 e2 ->
  pred e1 = pred e2.
Proof.
  intros Hl1 Hl2 Hb1 Hb2 Heq.
  destruct (pred e1) as [ | a0 [ | a1 [ | a2 [ | a3 [ | ? ? ] ] ] ] ] eqn:E1;
    try discriminate.
  destruct (pred e2) as [ | b0 [ | b1 [ | b2 [ | b3 [ | ? ? ] ] ] ] ] eqn:E2;
    try discriminate.
  repeat match goal with
         | H : Forall _ (_ :: _) |- _ =>
             apply Forall_cons in H; destruct H as [? H]
         end.
  rewrite (read_p3_0_value e1 a0 a1 a2 a3) in Heq by assumption.
  rewrite (read_p3_0_value e2 b0 b1 b2 b3) in Heq by assumption.
  unfold is_byte in *.
  assert (a0 = b0 /\ a1 = b1 /\ a2 = b2 /\ a3 = b3) as (-> & -> & -> & ->)
    by lia.
  reflexivity.
Qed.

Lemma read_p3_0_injective_witness :
  pred env_preds = pred (set_last_pc_dumped 5 env_preds).
Proof.
  apply (read_p3_0_injective env_preds (set_last_pc_dumped 5 env_preds));
    try reflexivity;
    repeat constructor; unfold is_byte; lia.
Defined.

(** ** Runs of dumps *)

Section DumpRuns.

Context {R : Type}.
Implicit Types (cpu : HexagonCPU R) (f : FILE).

Lemma dump_suppressed_after_dump cpu f :
  lldb_compat cpu = true ->
  dump_suppressed (fst (hexagon_dump cpu f)) = true.
Proof.
  intros Hc. destruct (dump_suppressed cpu) eqn:Hs.
  - rewrite (hexagon_dump_suppressed cpu f Hs). exact Hs.
  - rewrite (hexagon_dump_not_suppressed cpu f Hs), Hc. cbn [fst].
    unfold dump_suppressed.
    cbn [set_env set_last_pc_dumped lldb_compat env gpr last_pc_dumped].
    rewrite Hc, Z.eqb_refl. reflexivity.
Qed.

Lemma lldb_compat_after_dump cpu f :
  lldb_compat (fst (hexagon_dump cpu f)) = lldb_compat cpu.
Proof.
  destruct (dump_suppressed cpu) eqn:Hs.
  - rewrite (hexagon_dump_suppressed cpu f Hs). reflexivity.
  - rewrite (hexagon_dump_not_suppressed cpu f Hs). cbn [fst].
    destruct (lldb_compat cpu) eqn:Hc; [ exact Hc | exact Hc ].
Qed.

(** With [lldb_compat] set, any number of dumps in a row (at least one)
    leaves the CPU object and the stream exactly as the first of them
    does: while the program counter stays put, every dump after the first
    is skipped. *)
Theorem dumps_compat_once (n : nat) cpu f :
  lldb_compat cpu = true ->
  dumps (S n) cpu f = hexagon_dump cpu f.
Proof.
  revert cpu f. induction n as [ | n IH ]; intros cpu f Hc.
  - cbn [dumps]. destruct (hexagon_dump cpu f); reflexivity.
  - change (dumps (S (S n)) cpu f)
      with (dumps (S n) (fst (hexagon_dump cpu f)) (snd (hexagon_dump cpu f))).
    rewrite IH by (rewrite lldb_compat_after_dump; exact Hc).
    rewrite hexagon_dump_suppressed
      by (apply dump_suppressed_after_dump; exact Hc).
    destruct (hexagon_dump cpu f); reflexivity.
Qed.

(** With [lldb_compat] clear, [n] dumps in a row leave the CPU object as it
    was and append the same 49 lines [n] times. *)
Theorem dumps_no_compat (n : nat) cpu f :
  lldb_compat cpu = false ->
  dumps n cpu f
  = (cpu, f ++ concat (replicate n (expected_dump_lines cpu))) /\
  length (snd (dumps n cpu f)) = (length f + 49 * n)%nat.
Proof.
  intros Hc.
  assert (Hs : dump_suppressed cpu = false)
    by (unfold dump_suppressed; rewrite Hc; reflexivity).
  assert (Hrun : forall f,
             dumps n cpu f
             = (cpu, f ++ concat (replicate n (expected_dump_lines cpu)))).
  { induction n as [ | n IH ]; intros f0; cbn [dumps replicate concat].
    - rewrite app_nil_r. reflexivity.
    - rewrite (hexagon_dump_not_suppressed cpu f0 Hs), Hc. cbn [fst snd].
      rewrite IH, <- app_assoc. reflexivity. }
  split; [ apply Hrun | ].
  rewrite Hrun. cbn [snd].
  assert (Hlen : forall k,
             length (concat (replicate k (expected_dump_lines cpu)))
             = (49 * k)%nat).
  { induction k as [ | k IHk ]; [ reflexivity | ].
    cbn [replicate concat].
    rewrite length_app, IHk, expected_dump_lines_length. lia. }
  rewrite length_app, Hlen. reflexivity.
Qed.

End DumpRuns.

Lemma dumps_compat_once_witness :
  dumps 3 cpu_stack_compat [] = hexagon_dump cpu_stack_compat [].
Proof.
  apply (dumps_compat_once 2). reflexivity.
Defined.

Lemma dumps_no_compat_witness :
  dumps 2 cpu_stack []
  = (cpu_stack, [] ++ concat (replicate 2 (expected_dump_lines cpu_stack))) /\
  length (snd (dumps 2 cpu_stack [])) = (length ([] : FILE) + 49 * 2)%nat.
Proof.
  apply (dumps_no_compat 2 cpu_stack []). reflexivity.
Defined.

(** ** What a dump reads *)

(** The lines of a dump are determined by the registers, the predicates,
    the stack base and the stack adjustment: the floating-point status,
    [last_pc_dumped], [lldb_compat] and the parent object do not show in
    the text (they only decide whether there is any). *)
Theorem hexagon_dump_inputs {R1 R2 : Type} (c1 : HexagonCPU R1)
  (c2 : HexagonCPU R2) (f : FILE) :
  same_dump_inputs c1 c2 ->
  dump_suppressed c1 = false -> dump_suppressed c2 = false ->
  snd (hexagon_dump c1 f) = snd (hexagon_dump c2 f).
Proof.
  intros (Hgpr & Hpred & Hstack & Hadj) Hs1 Hs2.
  rewrite (hexagon_dump_not_suppressed c1 f Hs1),
    (hexagon_dump_not_suppressed c2 f Hs2).
  cbn [snd]. f_equal.
  unfold expected_dump_lines, adjust_stack_ptrs, read_p3_0.
  rewrite Hgpr, Hpred, Hstack, Hadj. reflexivity.
Qed.

Lemma hexagon_dump_inputs_witness :
  snd (hexagon_dump cpu_stack [])
  = snd (hexagon_dump
           (mk_cpu (mk_cs (Some HEX_EXCP_PRIV_NO_UREAD) 7%nat)
                   (reset_env (set_last_pc_dumped 4 env_stack)) true 0x100)
           []).
Proof.
  apply (hexagon_dump_inputs cpu_stack
           (mk_cpu (mk_cs (Some HEX_EXCP_PRIV_NO_UREAD) 7%nat)
                   (reset_env (set_last_pc_dumped 4 env_stack)) true 0x100)
           []).
  - repeat split.
  - reflexivity.
  - reflexivity.
Defined.

Section DumpValues.

Context {R : Type}.
Implicit Types (cpu : HexagonCPU R) (f : FILE).

Lemma gpr_names_lookup (i : nat) :
  (i < 32)%nat -> gpr_names !! i = Some (hexagon_regnames !!! i).
Proof.
  intros Hi.
  do 32 (destruct i as [ | i ]; [ reflexivity | ]). lia.
Qed.

(** Line [1 + i] of the dump text is the line of general-purpose register
    [i]. *)
Lemma expected_dump_lines_gpr cpu (i : nat) :
  (i < 32)%nat ->
  expected_dump_lines cpu !! S i
  = Some (reg_line (hexagon_regnames !!! i)
                   (adjust_stack_ptrs cpu (gpr (env cpu) !!! i))).
Proof.
  intros Hi. unfold expected_dump_lines.
  cbn [app]. rewrite lookup_cons. cbn [Nat.pred].
  rewrite lookup_app_l by (rewrite length_imap; cbn; exact Hi).
  rewrite list_lookup_imap, (gpr_names_lookup i Hi). reflexivity.
Qed.

(** With the stack adjustment at its default 0, or with a stack base whose
    window would wrap (a stack base that was never recorded, 0, is one),
    a dump shows every general-purpose register exactly as stored. *)
Theorem hexagon_dump_gprs_as_stored cpu f (i : nat) :
  dump_suppressed cpu = false ->
  lldb_stack_adjust cpu = 0
  \/ (is_target_ulong (stack_start (env cpu))
      /\ (stack_start (env cpu) < 0x10000
          \/ modulus - 0x1000 <= stack_start (env cpu))) ->
  (i < 32)%nat ->
  drop (length f) (snd (hexagon_dump cpu f)) !! S i
  = Some (reg_line (hexagon_regnames !!! i) (gpr (env cpu) !!! i)).
Proof.
  intros Hs Hoff Hi.
  rewrite (hexagon_dump_not_suppressed cpu f Hs). cbn [snd].
  rewrite drop_app_length, (expected_dump_lines_gpr cpu i Hi).
  destruct Hoff as [Hzero | [Hword Hwrap]].
  - rewrite (adjust_stack_ptrs_off cpu _ Hzero). reflexivity.
  - unfold adjust_stack_ptrs.
    rewrite (wrapped_window_empty _ _ Hword Hwrap).
    destruct (lldb_stack_adjust cpu =? 0); reflexivity.
Qed.

End DumpValues.

Lemma hexagon_dump_gprs_as_stored_witness :
  drop (length ([] : FILE)) (snd (hexagon_dump cpu_no_stack_base [])) !! 30%nat
  = Some (reg_line (hexagon_regnames !!! 29%nat)
                   (gpr (env cpu_no_stack_base) !!! 29%nat)).
Proof.
  apply (hexagon_dump_gprs_as_stored cpu_no_stack_base [] 29).
  - reflexivity.
  - right. split.
    + unfold is_target_ulong. rewrite modulus_val. cbn. lia.
    + left. cbn. lia.
  - lia.
Defined.

(** ** Program-counter writes and the dump *)

Section PcWrites.

Context {R : Type}.
Implicit Types (cpu : HexagonCPU R) (f : FILE).

(** The last write wins: of two program-counter writes, each through any
    of the three entry points, the first is unobservable; all nine
    orders are listed.  ([restore_state_to_opc] works on the environment
    of the CPU object.) *)
Theorem set_pc_last_write_wins cpu (v1 v2 : Z) (tb1 tb2 : TranslationBlock)
  (data1 data2 : list Z) :
  let restore1 := set_env (restore_state_to_opc (env cpu) tb1 data1) cpu in
  (hexagon_cpu_set_pc (hexagon_cpu_set_pc cpu v1) v2
     = hexagon_cpu_set_pc cpu v2 /\
   hexagon_cpu_set_pc (hexagon_cpu_synchronize_from_tb cpu tb1) v2
     = hexagon_cpu_set_pc cpu v2 /\
   hexagon_cpu_set_pc restore1 v2 = hexagon_cpu_set_pc cpu v2) /\
  (hexagon_cpu_synchronize_from_tb (hexagon_cpu_set_pc cpu v1) tb2
     = hexagon_cpu_synchronize_from_tb cpu tb2 /\
   hexagon_cpu_synchronize_from_tb (hexagon_cpu_synchronize_from_tb cpu tb1)
                                   tb2
     = hexagon_cpu_synchronize_from_tb cpu tb2 /\
   hexagon_cpu_synchronize_from_tb restore1 tb2
     = hexagon_cpu_synchronize_from_tb cpu tb2) /\
  (restore_state_to_opc (env (hexagon_cpu_set_pc cpu v1)) tb2 data2
     = restore_state_to_opc (env cpu) tb2 data2 /\
   restore_state_to_opc (env (hexagon_cpu_synchronize_from_tb cpu tb1))
                        tb2 data2
     = restore_state_to_opc (env cpu) tb2 data2 /\
   restore_state_to_opc (restore_state_to_opc (env cpu) tb1 data1) tb2 data2
     = restore_state_to_opc (env cpu) tb2 data2).
Proof.
  cbv zeta.
  unfold hexagon_cpu_set_pc, hexagon_cpu_synchronize_from_tb,
    restore_state_to_opc, set_env, set_gpr.
  cbn [env gpr pred last_pc_dumped stack_start fp_status parent_obj
       lldb_compat lldb_stack_adjust].
  rewrite !list_insert_insert_eq. repeat split.
Qed.

(** Only the low 32 bits of the [vaddr] given to [hexagon_cpu_set_pc]
    count: two addresses that differ by a multiple of 2^32 set the same
    program counter. *)
Theorem set_pc_truncates cpu (value k : Z) :
  hexagon_cpu_set_pc cpu (value + k * modulus) = hexagon_cpu_set_pc cpu value.
Proof.
  unfold hexagon_cpu_set_pc, to_target_ulong.
  rewrite Z.mod_add by (rewrite modulus_val; lia). reflexivity.
Qed.

(** A program-counter write keeps the register file at its size. *)
Lemma set_pc_wf cpu (value : Z) :
  env_wf (env cpu) -> env_wf (env (hexagon_cpu_set_pc cpu value)).
Proof.
  intros [Hg Hp]. split; cbn; [ rewrite length_insert | ]; assumption.
Qed.

(** With [lldb_compat] set, after a dump and a program-counter write the
    next dump is skipped exactly when the write put the program counter
    back where it was (as a 32-bit word); any other target is dumped. *)
Theorem dump_after_set_pc cpu f (value : Z) :
  lldb_compat cpu = true ->
  env_wf (env cpu) ->
  let first := hexagon_dump cpu f in
  let second :=
    hexagon_dump (hexagon_cpu_set_pc (fst first) value) (snd first) in
  (to_target_ulong value = gpr (env cpu) !!! HEX_REG_PC ->
   snd second = snd first) /\
  (to_target_ulong value <> gpr (env cpu) !!! HEX_REG_PC ->
   snd second
   = snd first
     ++ expected_dump_lines (hexagon_cpu_set_pc (fst first) value)).
Proof.
  intros Hc [Hlen _]. cbv zeta.
  set (first := hexagon_dump cpu f).
  assert (Hc1 : lldb_compat (fst first) = true)
    by (unfold first; rewrite lldb_compat_after_dump; exact Hc).
  assert (Hlast : last_pc_dumped (env (fst first))
                  = gpr (env cpu) !!! HEX_REG_PC).
  { unfold first. destruct (dump_suppressed cpu) eqn:Hs.
    - rewrite (hexagon_dump_suppressed cpu f Hs). cbn [fst].
      unfold dump_suppressed in Hs. rewrite Hc in Hs. cbn [andb] in Hs.
      apply Z.eqb_eq in Hs. symmetry. exact Hs.
    - rewrite (hexagon_dump_not_suppressed cpu f Hs), Hc. reflexivity. }
  assert (Hgpr : length (gpr (env (fst first))) = TOTAL_PER_THREAD_REGS).
  { unfold first. destruct (dump_suppressed cpu) eqn:Hs.
    - rewrite (hexagon_dump_suppressed cpu f Hs). exact Hlen.
    - rewrite (hexagon_dump_not_suppressed cpu f Hs), Hc. exact Hlen. }
  assert (Hsupp : dump_suppressed (hexagon_cpu_set_pc (fst first) value)
                  = (to_target_ulong value =? gpr (env cpu) !!! HEX_REG_PC)).
  { unfold dump_suppressed, hexagon_cpu_set_pc.
    cbn [set_env set_gpr lldb_compat env gpr last_pc_dumped].
    rewrite Hc1, Hlast. cbn [andb].
    rewrite list_lookup_total_insert_eq
      by (rewrite Hgpr; unfold HEX_REG_PC, TOTAL_PER_THREAD_REGS; lia).
    reflexivity. }
  split; intros Hv.
  - rewrite hexagon_dump_suppressed; [ reflexivity | ].
    rewrite Hsupp. apply Z.eqb_eq. exact Hv.
  - rewrite hexagon_dump_not_suppressed; [ reflexivity | ].
    rewrite Hsupp. apply Z.eqb_neq. exact Hv.
Qed.

End PcWrites.

Lemma dump_after_set_pc_witness :
  env_wf (env cpu_stack_compat) /\
  snd (hexagon_dump
         (hexagon_cpu_set_pc (fst (hexagon_dump cpu_stack_compat []))
                             0x10000000)
         (snd (hexagon_dump cpu_stack_compat [])))
  = snd (hexagon_dump cpu_stack_compat []) /\
  length (snd (hexagon_dump
         (hexagon_cpu_set_pc (fst (hexagon_dump cpu_stack_compat []))
                             0x10000004)
         (snd (hexagon_dump cpu_stack_compat [])))) = 98%nat.
Proof.
  assert (Hwf : env_wf (env cpu_stack_compat)) by (split; reflexivity).
  split; [ exact Hwf | ].
  split.
  - apply (dump_after_set_pc cpu_stack_compat [] 0x10000000 eq_refl Hwf).
    reflexivity.
  - rewrite (proj2 (dump_after_set_pc cpu_stack_compat [] 0x10000004
                      eq_refl Hwf)).
    + reflexivity.
    + vm_compute. discriminate.
Defined.

(** ** Lifecycle: error paths and what a reset keeps *)

Section LifecycleErrors.

Context {R : Type}.
Variable parent_reset : CPUState R -> CPUState R.
Variable cpu_exec_realizefn : CPUState R -> CPUState R * option Error.
Variable qemu_init_vcpu : CPUState R -> CPUState R.
Variable parent_realize : CPUState R -> CPUState R * option Error.

(** When [cpu_exec_realizefn] reports an error, [hexagon_cpu_realize]
    hands that error on and stops: no vCPU is requested, no reset runs,
    the parent class's realize is not called, and the architectural
    state (floating-point status included) and the two properties are
    untouched. *)
Theorem hexagon_cpu_realize_early_error (m : Machine R) (cs1 : CPUState R)
  (e : Error) :
  cpu_exec_realizefn (parent_obj (m_cpu m)) = (cs1, Some e) ->
  exists m' : Machine R,
    hexagon_cpu_realize parent_reset cpu_exec_realizefn qemu_init_vcpu
                        parent_realize m = Returns (Some e) m' /\
    m_calls m' = m_calls m ++ [CALL_cpu_exec_realizefn] /\
    env (m_cpu m') = env (m_cpu m) /\
    parent_obj (m_cpu m') = cs1 /\
    lldb_compat (m_cpu m') = lldb_compat (m_cpu m) /\
    lldb_stack_adjust (m_cpu m') = lldb_stack_adjust (m_cpu m).
Proof.
  intros Hfail. eexists. split.
  - unfold hexagon_cpu_realize, bind, outside, log_call, bind.
    cbn [m_cpu m_calls]. rewrite Hfail. reflexivity.
  - repeat split.
Qed.

(** When [cpu_exec_realizefn] succeeds, the vCPU is requested and the
    core is reset before the parent class's realize runs, and the result
    of [hexagon_cpu_realize] is whatever the parent class's realize
    reports: if that is an error, the core stays scheduled and reset,
    nothing is undone. *)
Theorem hexagon_cpu_realize_late_error (m : Machine R) (cs1 : CPUState R) :
  cpu_exec_realizefn (parent_obj (m_cpu m)) = (cs1, None) ->
  exists m' : Machine R,
    hexagon_cpu_realize parent_reset cpu_exec_realizefn qemu_init_vcpu
                        parent_realize m
      = Returns (snd (parent_realize (parent_reset (qemu_init_vcpu cs1))))
                m' /\
    m_calls m'
      = m_calls m ++ [CALL_cpu_exec_realizefn; CALL_qemu_init_vcpu;
                      CALL_cpu_reset; CALL_parent_reset;
                      CALL_parent_realize] /\
    env (m_cpu m') = reset_env (env (m_cpu m)) /\
    parent_obj (m_cpu m')
      = fst (parent_realize (parent_reset (qemu_init_vcpu cs1))).
Proof.
  intros Hok.
  unfold hexagon_cpu_realize, bind, outside, log_call, bind.
  cbn [m_cpu m_calls]. rewrite Hok. cbn.
  destruct (parent_realize (parent_reset (qemu_init_vcpu cs1)))
    as [cs2 err].
  eexists. split; [ reflexivity | ].
  cbn [m_cpu m_calls env parent_obj set_parent_obj fst].
  rewrite <- !app_assoc. repeat split.
Qed.

(** Apart from the two settings it makes, a reset leaves the
    floating-point status as it was (rounding mode, accrued exception
    flags, flush-to-zero), calls the parent class's reset exactly once,
    and applies it to the parent object. *)
Theorem hexagon_cpu_reset_keeps (m : Machine R) :
  let m' := final (hexagon_cpu_reset parent_reset m) in
  float_rounding_mode (fp_status (env (m_cpu m')))
    = float_rounding_mode (fp_status (env (m_cpu m))) /\
  float_exception_flags (fp_status (env (m_cpu m')))
    = float_exception_flags (fp_status (env (m_cpu m))) /\
  flush_to_zero (fp_status (env (m_cpu m')))
    = flush_to_zero (fp_status (env (m_cpu m))) /\
  m_calls m' = m_calls m ++ [CALL_parent_reset] /\
  parent_obj (m_cpu m') = parent_reset (parent_obj (m_cpu m)).
Proof. cbv zeta. rewrite hexagon_cpu_reset_returns. repeat split. Qed.

End LifecycleErrors.

Lemma hexagon_cpu_realize_early_error_witness :
  exists m' : Machine unit,
    hexagon_cpu_realize parent_reset_ok realizefn_fail init_vcpu_ok
                        realizefn_ok machine_unrealized
      = Returns (Some "realize failed"%string) m' /\
    m_calls m' = m_calls machine_unrealized ++ [CALL_cpu_exec_realizefn] /\
    env (m_cpu m') = env (m_cpu machine_unrealized) /\
    parent_obj (m_cpu m') = parent_obj (m_cpu machine_unrealized) /\
    lldb_compat (m_cpu m') = lldb_compat (m_cpu machine_unrealized) /\
    lldb_stack_adjust (m_cpu m') = lldb_stack_adjust (m_cpu machine_unrealized).
Proof.
  apply (hexagon_cpu_realize_early_error parent_reset_ok realizefn_fail
           init_vcpu_ok realizefn_ok machine_unrealized).
  reflexivity.
Defined.

Lemma hexagon_cpu_realize_late_error_witness :
  exists m' : Machine unit,
    hexagon_cpu_realize parent_reset_ok realizefn_ok init_vcpu_ok
                        realizefn_fail machine_unrealized
      = Returns (snd (realizefn_fail
                        (parent_reset_ok
                           (init_vcpu_ok
                              (parent_obj (m_cpu machine_unrealized))))))
                m' /\
    m_calls m'
      = m_calls machine_unrealized
        ++ [CALL_cpu_exec_realizefn; CALL_qemu_init_vcpu;
            CALL_cpu_reset; CALL_parent_reset; CALL_parent_realize] /\
    env (m_cpu m') = reset_env (env (m_cpu machine_unrealized)) /\
    parent_obj (m_cpu m')
      = fst (realizefn_fail
               (parent_reset_ok
                  (init_vcpu_ok (parent_obj (m_cpu machine_unrealized))))).
Proof.
  apply (hexagon_cpu_realize_late_error parent_reset_ok realizefn_ok
           init_vcpu_ok realizefn_fail machine_unrealized).
  reflexivity.
Defined.

(** ** Registers a dump does not read *)

Section DumpUnread.

Context {R : Type}.
Implicit Types (cpu : HexagonCPU R) (f : FILE).

(** The user-only dump prints [r0] .. [r31] and ten control registers.
    The storage slot of the [p3_0] alias (its line shows the packed
    predicates instead), [c5], and registers 44 and up ([cs0], [cs1],
    [pkt_cnt], ...) are never read: writing any of them changes neither
    the text of a dump nor whether it is skipped. *)
Theorem hexagon_dump_unread_registers cpu f (i : nat) (v : Z) :
  (i = HEX_REG_P3_0 \/ i = 37 \/ 44 <= i)%nat ->
  snd (hexagon_dump (set_env (set_gpr i v (env cpu)) cpu) f)
  = snd (hexagon_dump cpu f).
Proof.
  intros Hi.
  set (cpu' := set_env (set_gpr i v (env cpu)) cpu).
  assert (Hread : forall j : nat,
             (j < 36 \/ 38 <= j < 44)%nat ->
             gpr (env cpu') !!! j = gpr (env cpu) !!! j).
  { intros j Hj. unfold cpu'. cbn [set_env set_gpr env gpr].
    apply list_lookup_total_insert_ne. unfold HEX_REG_P3_0 in Hi. lia. }
  assert (Hsupp : dump_suppressed cpu' = dump_suppressed cpu).
  { unfold dump_suppressed.
    rewrite (Hread HEX_REG_PC) by (unfold HEX_REG_PC; lia). reflexivity. }
  assert (Hlines : expected_dump_lines cpu' = expected_dump_lines cpu).
  { assert (Hadj : forall a : Z,
               adjust_stack_ptrs cpu' a = adjust_stack_ptrs cpu a).
    { intros a. unfold adjust_stack_ptrs, cpu'.
      cbn [set_env set_gpr env stack_start lldb_stack_adjust].
      reflexivity. }
    assert (Hp : read_p3_0 (env cpu') = read_p3_0 (env cpu)).
    { unfold read_p3_0, cpu'. cbn [set_env set_gpr env pred].
      reflexivity. }
    assert (Hgprs :
              imap (fun j name =>
                      reg_line name
                        (adjust_stack_ptrs cpu' (gpr (env cpu') !!! j)))
                   gpr_names
              = imap (fun j name =>
                        reg_line name
                          (adjust_stack_ptrs cpu (gpr (env cpu) !!! j)))
                     gpr_names).
    { apply imap_ext. intros j name Hname.
      assert (Hj : (j < 32)%nat)
        by (apply lookup_lt_Some in Hname; exact Hname).
      cbn beta. rewrite Hadj, (Hread j) by lia. reflexivity. }
    unfold expected_dump_lines. cbv zeta.
    rewrite Hgprs, Hp.
    rewrite !Hread by (cbv; lia). reflexivity. }
  destruct (dump_suppressed cpu) eqn:Hs.
  - rewrite (hexagon_dump_suppressed cpu f Hs).
    rewrite (hexagon_dump_suppressed cpu' f) by exact Hsupp.
    reflexivity.
  - rewrite (hexagon_dump_not_suppressed cpu f Hs).
    rewrite (hexagon_dump_not_suppressed cpu' f) by exact Hsupp.
    cbn [snd]. rewrite Hlines. reflexivity.
Qed.

End DumpUnread.

Lemma hexagon_dump_unread_registers_witness :
  snd (hexagon_dump
         (set_env (set_gpr HEX_REG_P3_0 0xdeadbeef (env cpu_stack)) cpu_stack)
         [])
  = snd (hexagon_dump cpu_stack []).
Proof.
  apply (hexagon_dump_unread_registers cpu_stack [] HEX_REG_P3_0 0xdeadbeef).
  left. reflexivity.
Defined.
